(** * ChisCode request pipeline: a shallow embedding of [app/main.py]

    The development follows the source file top to bottom:

    - [PyStr], [PyDict]: the few Python string and dict operations the
      code relies on ([in], [startswith], [lower], [strip], item
      assignment, [get], [values]);
    - [Advisor]: [prepare_deployment_options];
    - [Pipeline]: [process_user_request], as a resumable coroutine whose
      suspension points are the awaited calls on external services;
    - [Chat]: the Chainlit handlers [on_message], [on_stop] and
      [handle_command] acting on the shared [cl.user_session].

    Logging and the conversation memory are left out: nothing the
    handlers decide depends on them. The text of a message is kept by a
    name for it. A response of a service that lacks a key the code
    subscripts raises inside the [try] block, and counts here as the
    call raising.

    What the model does not reach: strings are byte strings, read as
    ASCII text ([lower], [strip] and the length of a string are
    Python's on ASCII text only); a service either answers or raises an
    [Exception], so a run that is cancelled while it waits, which
    [except Exception] does not catch, is not among the runs here; and
    the messages sent to the user are taken as delivered. *)

From Stdlib Require Import String Ascii List Bool Arith Lia Sorted.
Import ListNotations.
Local Open Scope string_scope.
Local Open Scope list_scope.

(* ===================================================================== *)
(** ** Python strings (ASCII fragment) *)
(* ===================================================================== *)

Module PyStr.

(** [sub in s] on [str]: [sub] occurs in [s] as a contiguous run. *)
Fixpoint contains (sub s : string) : bool :=
  String.prefix sub s ||
  match s with
  | EmptyString => false
  | String _ rest => contains sub rest
  end.

(** [s.startswith(p)]. *)
Definition startswith (p s : string) : bool := String.prefix p s.

Definition lower_char (c : ascii) : ascii :=
  let n := nat_of_ascii c in
  if ((65 <=? n) && (n <=? 90))%nat then ascii_of_nat (n + 32) else c.

(** [s.lower()], on the ASCII letters. *)
Fixpoint lower (s : string) : string :=
  match s with
  | EmptyString => EmptyString
  | String c rest => String (lower_char c) (lower rest)
  end.

(** The ASCII characters [str.strip()] removes. *)
Definition is_space (c : ascii) : bool :=
  let n := nat_of_ascii c in
  ((n =? 32) || ((9 <=? n) && (n <=? 13)) || ((28 <=? n) && (n <=? 31)))%nat.

Fixpoint lstrip_chars (l : list ascii) : list ascii :=
  match l with
  | c :: rest => if is_space c then lstrip_chars rest else l
  | [] => []
  end.

(** [s.strip()]. *)
Definition strip (s : string) : string :=
  string_of_list_ascii
    (rev (lstrip_chars (rev (lstrip_chars (list_ascii_of_string s))))).

End PyStr.

(* ===================================================================== *)
(** ** Python dicts with string keys, in insertion order *)
(* ===================================================================== *)

Module PyDict.

(** A [Dict[str, str]] is kept as its items in insertion order. *)
Definition dict : Type := list (string * string).

Definition empty : dict := [].

(** [d.get(k)] *)
Fixpoint get (k : string) (d : dict) : option string :=
  match d with
  | [] => None
  | (k', v) :: rest => if String.eqb k k' then Some v else get k rest
  end.

(** [d.get(k, default)] *)
Definition get_or (k default : string) (d : dict) : string :=
  match get k d with Some v => v | None => default end.

(** [k in d] *)
Definition mem (k : string) (d : dict) : bool :=
  match get k d with Some _ => true | None => false end.

(** [d[k] = v]: an existing key keeps its position, a new key goes last. *)
Fixpoint set (k v : string) (d : dict) : dict :=
  match d with
  | [] => [(k, v)]
  | (k', v') :: rest =>
      if String.eqb k k' then (k, v) :: rest else (k', v') :: set k v rest
  end.

(** [d.values()] *)
Definition values (d : dict) : list string := map snd d.

(** [len(d)] *)
Definition len (d : dict) : nat := length d.

(** Keys of a dict are unique. *)
Definition wf (d : dict) : Prop := NoDup (map fst d).

(** Python's [d1 == d2]: same keys, same value at each key. *)
Definition same_mapping (d1 d2 : dict) : Prop :=
  forall k, get k d1 = get k d2.

End PyDict.

(* ===================================================================== *)
(** ** [prepare_deployment_options] *)
(* ===================================================================== *)

Module Advisor.
Import PyDict.

(** The dict [{"recommended": [...], "supported": [...]}]. *)
Record Options : Type := mkOptions
  { recommended : list string;
    supported : list string }.

(** The local variables of one call: the caller's [files] dict, which
    the body only reads, and the [options] being built. *)
Record Frame : Type := mkFrame
  { files : dict;
    options : Options }.

Definition has_nextjs (files : dict) : bool :=
  mem "next.config.js" files || mem "next.config.ts" files.

Definition has_react (files : dict) : bool :=
  mem "package.json" files &&
  PyStr.contains "react" (get_or "package.json" "" files).

Definition has_django (files : dict) : bool :=
  mem "manage.py" files.

Definition has_fastapi (files : dict) : bool :=
  existsb (fun content => PyStr.contains "fastapi" content) (values files).

(** [options["recommended"].append(x)] *)
Definition recommended_append (x : string) (fr : Frame) : Frame :=
  {| files := files fr;
     options := {| recommended := recommended (options fr) ++ [x];
                   supported := supported (options fr) |} |}.

(** [options["supported"].extend(xs)] *)
Definition supported_extend (xs : list string) (fr : Frame) : Frame :=
  {| files := files fr;
     options := {| recommended := recommended (options fr);
                   supported := supported (options fr) ++ xs |} |}.

(** The first [if]/[elif] (lines 724-729): the frontend manifest. *)
Definition frontend_branch (has_nextjs has_react : bool) (fr : Frame) : Frame :=
  if has_nextjs then
    supported_extend ["netlify"; "railway"] (recommended_append "vercel" fr)
  else if has_react then
    supported_extend ["vercel"; "render"] (recommended_append "netlify" fr)
  else fr.

(** The second [if] (lines 731-733): the backend marker. *)
Definition backend_branch (has_django has_fastapi : bool) (fr : Frame) : Frame :=
  if has_django || has_fastapi then
    supported_extend ["render"; "fly.io"; "aws"]
      (recommended_append "railway" fr)
  else fr.

(** The body: the four tests are taken first, then the two statements
    run in order on the frame. *)
Definition body (fs : dict) : Frame :=
  let nextjs := has_nextjs fs in
  let react := has_react fs in
  let django := has_django fs in
  let fastapi := has_fastapi fs in
  let fr0 := {| files := fs;
                options := {| recommended := []; supported := [] |} |} in
  backend_branch django fastapi (frontend_branch nextjs react fr0).

(** The value returned to the caller. *)
Definition prepare_deployment_options (fs : dict) : Options :=
  options (body fs).

(** The caller's dict as the call leaves it. *)
Definition files_after (fs : dict) : dict := files (body fs).

End Advisor.

(* ===================================================================== *)
(** ** [process_user_request] *)
(* ===================================================================== *)

Module Pipeline.
Import PyDict.

(** Modelled from the spec: the enum [GenerationStatus] comes from
    [app.models.schemas], which is not among the sources; its members
    are the five the handlers of [main.py] read and write, the session
    statuses of the data model. *)
Inductive GenerationStatus : Type :=
| IDLE | GENERATING | COMPLETED | FAILED | CANCELLED.

(** Exceptions: the one class the code names, and every other
    [Exception]. [str(e)] is the text. These are what [except Exception]
    catches; a [BaseException] outside [Exception], such as the
    cancellation of the waiting task, is not a value of this type. *)
Inductive exn : Type :=
| RateLimitExceeded (text : string)
| Exception (text : string).

Definition str (e : exn) : string :=
  match e with RateLimitExceeded t => t | Exception t => t end.

(** What an awaited call does: it returns a value or raises. *)
Inductive outcome (A : Type) : Type :=
| Ok (a : A)
| Raised (e : exn).
Arguments Ok {A} a.
Arguments Raised {A} e.

(** The [requirements] dict; both keys are read with [.get] and a
    default, so either may be absent. *)
Record Requirements : Type := mkRequirements
  { features : option (list string);
    project_name : option string }.

(** The [tech_stack] dict, at the four entries the code subscripts. *)
Record TechStack : Type := mkTechStack
  { frontend_framework : string;
    backend_framework : string;
    database_type : string;
    styling_library : string }.

(** One item of the generation stream, by its ["type"]. *)
Inductive Update : Type :=
| FileUpdate (filename content : string)
| ProgressUpdate (message : string)
| OtherUpdate (type : string).

(** The [validation_result] dict. *)
Record ValidationResult : Type := mkValidationResult
  { valid : bool;
    errors : list string }.

(** Modelled from the spec: [ProjectCreate] comes from
    [app.models.schemas], which is not among the sources; the fields
    are the keyword arguments the pipeline builds it from, the Project
    of the data model. *)
Record ProjectCreate : Type := mkProject
  { name : string;
    description : string;
    tech_stack : TechStack;
    files : dict;
    preview_url : option string }.

(** The services behind [orchestrator], [cl.AskActionMessage] and
    [settings]: none of them is part of the sources, so a run is taken
    against an arbitrary behaviour of each. A generation stream is the
    finite list of what its iterator will do: yield an item, or raise. *)
Record World : Type := mkWorld
  { w_analyze_requirements : string -> outcome Requirements;
    w_select_tech_stack : Requirements -> outcome TechStack;
    w_ask_action : TechStack -> outcome (option string);
    w_generate_code_stream : Requirements -> TechStack -> list (outcome Update);
    w_validate_code : dict -> outcome ValidationResult;
    w_fix_code_issues : dict -> list string -> outcome dict;
    w_create_preview : dict -> outcome (option string);
    feature_live_preview : bool }.

(** [cl.user_session], at the keys the handlers use. *)
Record UserData : Type := mkUserData
  { subscription_tier : option string }.

Record Session : Type := mkSession
  { user : option string;
    user_data : option UserData;
    current_project : option ProjectCreate;
    generation_status : GenerationStatus;
    awaiting_input : option string }.

(** [cl.user_session.set("generation_status", st)] *)
Definition set_generation_status (st : GenerationStatus) (s : Session) : Session :=
  {| user := user s; user_data := user_data s;
     current_project := current_project s;
     generation_status := st;
     awaiting_input := awaiting_input s |}.

(** [cl.user_session.set("current_project", p)] *)
Definition set_current_project (p : option ProjectCreate) (s : Session) : Session :=
  {| user := user s; user_data := user_data s;
     current_project := p;
     generation_status := generation_status s;
     awaiting_input := awaiting_input s |}.

(** [cl.user_session.set("awaiting_input", a)] *)
Definition set_awaiting_input (a : string) (s : Session) : Session :=
  {| user := user s; user_data := user_data s;
     current_project := current_project s;
     generation_status := generation_status s;
     awaiting_input := Some a |}.

(** The awaited calls on services. *)
Inductive call : Type :=
| analyze_requirements (user_input : string)
| select_tech_stack (requirements : Requirements)
| ask_action (stack : TechStack)
| generate_code_stream (requirements : Requirements) (stack : TechStack)
| validate_code (generated_files : dict)
| fix_code_issues (generated_files : dict) (errs : list string)
| create_preview (generated_files : dict).

(** What is shown to the user: messages, streamed tokens and step
    outputs, each named after the text the source sends. *)
Inductive output : Type :=
| MsgAnalyzing                        (* "Analyzing your request..." *)
| StepIdentified (n : nat)            (* "Identified n key features" *)
| StepStack (stack : TechStack)       (* the stack summary *)
| MsgAnalyzingRemoved                 (* thinking_msg.remove() *)
| MsgSpecifyTechnologies              (* "Please specify your preferred technologies:" *)
| MsgGenerationOpened                 (* generation_msg.send() *)
| TokenGenerated (filename : string)  (* "Generated: filename" *)
| TokenProgress (message : string)
| MsgGenerationUpdated                (* generation_msg.update() *)
| StepGenerated (n : nat)             (* "Generated n files" *)
| StepIssuesResolved                  (* "Issues resolved" *)
| StepValidationPassed                (* "Code validation passed" *)
| StepPreviewAt (url : option string) (* "Preview available at: url" *)
| MsgAppReady (project : string) (n_files : nat) (live_preview : option string)
| MsgGenerationFailed (text : string) (* "Generation Failed ... str(e)" *)
| MsgSessionExpired
| MsgRateLimited (text : string)
| MsgStillGenerating                  (* "Please wait... I'm still generating ..." *)
| MsgError (text : string)            (* "An error occurred: str(e)" *)
| MsgTaskCancelled
| MsgHelp
| MsgUpgrade
| MsgStatus
| MsgSessionReset
| MsgUnknownCommand (command : string).

Inductive event : Type :=
| Call (c : call)
| Show (o : output).

(** Where the coroutine is suspended: the awaited call in flight, with
    the local variables that are live there. *)
Inductive point : Type :=
| AtAnalyze (user_input : string)
| AtSelect (user_input : string) (requirements : Requirements)
| AtConfirm (user_input : string) (requirements : Requirements)
    (stack : TechStack)
| AtStream (user_input : string) (requirements : Requirements)
    (stack : TechStack) (generated_files : dict)
    (stream : list (outcome Update))
| AtValidate (user_input : string) (requirements : Requirements)
    (stack : TechStack) (generated_files : dict)
| AtFix (user_input : string) (requirements : Requirements)
    (stack : TechStack) (generated_files : dict) (errs : list string)
| AtPreview (user_input : string) (requirements : Requirements)
    (stack : TechStack) (generated_files : dict).

Inductive task : Type :=
| Suspended (p : point)
| Returned.

(** The result of running the coroutine up to its next suspension. *)
Definition leg : Type := (task * Session * list event)%type.

(** Truthiness of [preview_url]: [None] and the empty string are false. *)
Definition truthy (url : option string) : option string :=
  match url with
  | Some u => if String.eqb u "" then None else Some u
  | None => None
  end.

(** [except Exception as e:] (lines 634-645). *)
Definition on_exception (e : exn) (s : Session) : leg :=
  (Returned, set_generation_status FAILED s,
   [Show (MsgGenerationFailed (str e))]).

(** Step 6 to the end of the [try] block (lines 565-632): the project
    is attached (576), the completion message sent (618-622) and the
    status written (630). The send is taken as delivered, so the three
    come as one. *)
Definition finalize (user_input : string) (requirements : Requirements)
    (stack : TechStack) (generated_files : dict)
    (url : option string) (s : Session) : leg :=
  let deployment_options := Advisor.prepare_deployment_options generated_files in
  let project :=
    {| name := match project_name requirements with
               | Some n => n
               | None => "My App"
               end;
       description := user_input;
       tech_stack := stack;
       files := generated_files;
       preview_url := url |} in
  (Returned,
   set_generation_status COMPLETED (set_current_project (Some project) s),
   [Show (MsgAppReady (name project) (len generated_files) (truthy url))]).

(** Step 5 (lines 559-563), up to the call of [create_preview]. *)
Definition to_preview (w : World) (user_input : string)
    (requirements : Requirements) (stack : TechStack)
    (generated_files : dict) (s : Session) : leg :=
  if feature_live_preview w then
    (Suspended (AtPreview user_input requirements stack generated_files), s,
     [Call (create_preview generated_files)])
  else
    finalize user_input requirements stack generated_files None s.

(** The end of step 4 (line 556), then step 5. *)
Definition validated (w : World) (user_input : string)
    (requirements : Requirements) (stack : TechStack)
    (generated_files : dict) (s : Session) : leg :=
  let '(t, s', evs) := to_preview w user_input requirements stack generated_files s in
  (t, s', Show StepValidationPassed :: evs).

(** The coroutine resumed at [p] with the answer of the awaited call,
    run up to its next suspension or its return. *)
Definition advance (w : World) (p : point) (s : Session) : leg :=
  match p with
  | AtAnalyze user_input =>                                (* line 484 *)
      match w_analyze_requirements w user_input with
      | Raised e => on_exception e s
      | Ok requirements =>
          let n := match features requirements with
                   | Some fs => length fs
                   | None => 0
                   end in
          (Suspended (AtSelect user_input requirements), s,
           [Show (StepIdentified n); Call (select_tech_stack requirements)])
      end
  | AtSelect user_input requirements =>                    (* line 489 *)
      match w_select_tech_stack w requirements with
      | Raised e => on_exception e s
      | Ok stack =>
          (Suspended (AtConfirm user_input requirements stack), s,
           [Show (StepStack stack); Show MsgAnalyzingRemoved;
            Call (ask_action stack)])
      end
  | AtConfirm user_input requirements stack =>             (* lines 502-518 *)
      match w_ask_action w stack with
      | Raised e => on_exception e s
      | Ok confirm_msg =>
          let declined := match confirm_msg with
                          | Some value => String.eqb value "no"
                          | None => false
                          end in
          if declined then
            (Returned,
             set_generation_status IDLE (set_awaiting_input "custom_stack" s),
             [Show MsgSpecifyTechnologies])
          else
            (Suspended (AtStream user_input requirements stack empty
                          (w_generate_code_stream w requirements stack)), s,
             [Show MsgGenerationOpened;
              Call (generate_code_stream requirements stack)])
      end
  | AtStream user_input requirements stack generated_files stream =>
      match stream with                                    (* lines 530-541 *)
      | Raised e :: _ => on_exception e s
      | Ok update :: rest =>
          match update with
          | FileUpdate filename content =>
              (Suspended (AtStream user_input requirements stack
                            (set filename content generated_files) rest), s,
               [Show (TokenGenerated filename)])
          | ProgressUpdate message =>
              (Suspended (AtStream user_input requirements stack
                            generated_files rest), s,
               [Show (TokenProgress message)])
          | OtherUpdate _ =>
              (Suspended (AtStream user_input requirements stack
                            generated_files rest), s, [])
          end
      | [] =>
          (Suspended (AtValidate user_input requirements stack generated_files), s,
           [Show MsgGenerationUpdated;
            Show (StepGenerated (len generated_files));
            Call (validate_code generated_files)])
      end
  | AtValidate user_input requirements stack generated_files =>
      match w_validate_code w generated_files with         (* lines 545-547 *)
      | Raised e => on_exception e s
      | Ok validation_result =>
          if negb (valid validation_result) then
            (Suspended (AtFix user_input requirements stack generated_files
                          (errors validation_result)), s,
             [Call (fix_code_issues generated_files (errors validation_result))])
          else
            validated w user_input requirements stack generated_files s
      end
  | AtFix user_input requirements stack generated_files errs =>
      match w_fix_code_issues w generated_files errs with  (* lines 550-554 *)
      | Raised e => on_exception e s
      | Ok fixed =>
          let '(t, s', evs) := validated w user_input requirements stack fixed s in
          (t, s', Show StepIssuesResolved :: evs)
      end
  | AtPreview user_input requirements stack generated_files =>
      match w_create_preview w generated_files with        (* lines 562-563 *)
      | Raised e => on_exception e s
      | Ok url =>
          let '(t, s', evs) :=
            finalize user_input requirements stack generated_files url s in
          (t, s', Show (StepPreviewAt url) :: evs)
      end
  end.

(** The coroutine from its first statement to its first suspension
    (lines 471-484). *)
Definition start (user_input : string) (s : Session) : leg :=
  (Suspended (AtAnalyze user_input), set_generation_status GENERATING s,
   [Show MsgAnalyzing; Call (analyze_requirements user_input)]).

(** One run, driven to the end against a world. *)
Record Run : Type := mkRun
  { run_task : task;
    run_session : Session;
    run_log : list event }.

Definition begin (user_input : string) (s : Session) : Run :=
  let '(t, s', evs) := start user_input s in
  {| run_task := t; run_session := s'; run_log := evs |}.

Definition step (w : World) (r : Run) : Run :=
  match run_task r with
  | Returned => r
  | Suspended p =>
      let '(t, s', evs) := advance w p (run_session r) in
      {| run_task := t; run_session := s'; run_log := run_log r ++ evs |}
  end.

Fixpoint steps (n : nat) (w : World) (r : Run) : Run :=
  match n with
  | O => r
  | S n' => steps n' w (step w r)
  end.

(** The number of items the stream of this run holds. *)
Definition stream_length (w : World) (user_input : string) : nat :=
  match w_analyze_requirements w user_input with
  | Ok requirements =>
      match w_select_tech_stack w requirements with
      | Ok stack => length (w_generate_code_stream w requirements stack)
      | Raised _ => 0
      end
  | Raised _ => 0
  end.

(** [await process_user_request(user_input, orchestrator, memory)],
    every awaited call answered by the world: six calls at most
    besides one resumption per stream item and one at its end. *)
Definition process_user_request (w : World) (user_input : string)
    (s : Session) : Run :=
  steps (7 + stream_length w user_input) w (begin user_input s).

(** How often a run called the validator, and the repair. *)
Definition is_validate (e : event) : bool :=
  match e with Call (validate_code _) => true | _ => false end.

Definition is_fix (e : event) : bool :=
  match e with Call (fix_code_issues _ _) => true | _ => false end.

Definition is_select (e : event) : bool :=
  match e with Call (select_tech_stack _) => true | _ => false end.

Definition is_generate (e : event) : bool :=
  match e with Call (generate_code_stream _ _) => true | _ => false end.

Definition count (f : event -> bool) (l : list event) : nat :=
  length (filter f l).

End Pipeline.

(* ===================================================================== *)
(** ** The handlers of one chat session *)
(* ===================================================================== *)

Module Chat.
Import PyDict Pipeline.

(** One chat: the shared [cl.user_session], the pipeline coroutines
    that are suspended on a call (oldest first), and what was shown
    or called so far. Handlers run on one event loop, so each runs
    without interruption between two awaits; the awaits at which
    another handler can take over are the calls on services. *)
Record State : Type := mkState
  { store : Session;
    tasks : list point;
    transcript : list event }.

(** What can happen next in a chat: the user sends a message (with
    the answer [check_rate_limit] gives for it), the user presses
    stop, or the event loop resumes the [i]-th suspended pipeline
    because its call has answered. Whatever the hosting framework does
    to a task on its own account is not in these sources; a task it
    ends is one that is never resumed again. *)
Inductive action : Type :=
| UserMessage (content : string) (limiter : outcome unit)
| UserStop
| Resume (i : nat).

Definition say (o : output) (c : State) : State :=
  {| store := store c; tasks := tasks c;
     transcript := transcript c ++ [Show o] |}.

Definition write (f : Session -> Session) (c : State) : State :=
  {| store := f (store c); tasks := tasks c; transcript := transcript c |}.

(** [handle_command] (lines 648-706). *)
Definition handle_command (command : string) (c : State) : State :=
  let command := PyStr.strip (PyStr.lower command) in
  if String.eqb command "/help" then say MsgHelp c
  else if String.eqb command "/upgrade" then say MsgUpgrade c
  else if String.eqb command "/status" then say MsgStatus c
  else if String.eqb command "/reset" then
    say MsgSessionReset
      (write (set_generation_status IDLE)
         (write (set_current_project None) c))
  else say (MsgUnknownCommand command) c.

Definition is_generating (st : GenerationStatus) : bool :=
  match st with GENERATING => true | _ => false end.

(** A leg of a pipeline, put back into the chat: [slot] says what to
    do with the task that ran it. *)
Definition absorb (slot : task -> list point) (l : leg) (c : State) : State :=
  let '(t, s', evs) := l in
  {| store := s'; tasks := slot t; transcript := transcript c ++ evs |}.

(** [on_message] (lines 178-235), up to the first suspension of the
    pipeline it starts. *)
Definition on_message (content : string) (limiter : outcome unit)
    (c : State) : State :=
  match user (store c), user_data (store c) with
  | Some _, Some _ =>
      match limiter with
      | Raised (RateLimitExceeded text) => say (MsgRateLimited text) c
      | Raised (Exception text) => say (MsgError text) c
      | Ok _ =>
          if PyStr.startswith "/" content then handle_command content c
          else if is_generating (generation_status (store c)) then
            say MsgStillGenerating c
          else
            absorb (fun t => match t with
                             | Suspended p => tasks c ++ [p]
                             | Returned => tasks c
                             end)
                   (start content (store c)) c
      end
  | _, _ => say MsgSessionExpired c
  end.

(** [on_stop] (lines 238-255). *)
Definition on_stop (c : State) : State :=
  say MsgTaskCancelled (write (set_generation_status CANCELLED) c).

Definition replace_at (i : nat) (p : point) (l : list point) : list point :=
  firstn i l ++ p :: skipn (S i) l.

Definition remove_at (i : nat) (l : list point) : list point :=
  firstn i l ++ skipn (S i) l.

(** The [i]-th suspended pipeline runs its next leg. *)
Definition resume (w : World) (i : nat) (c : State) : State :=
  match nth_error (tasks c) i with
  | None => c
  | Some p =>
      absorb (fun t => match t with
                       | Suspended p' => replace_at i p' (tasks c)
                       | Returned => remove_at i (tasks c)
                       end)
             (advance w p (store c)) c
  end.

Definition act (w : World) (c : State) (a : action) : State :=
  match a with
  | UserMessage content limiter => on_message content limiter c
  | UserStop => on_stop c
  | Resume i => resume w i c
  end.

Definition play (w : World) (acts : list action) (c : State) : State :=
  fold_left (act w) acts c.

(** The session as [on_chat_start] leaves it for a signed-in user. *)
Definition opened (who : string) (data : UserData) : State :=
  {| store := {| user := Some who; user_data := Some data;
                 current_project := None;
                 generation_status := IDLE;
                 awaiting_input := None |};
     tasks := [];
     transcript := [] |}.

End Chat.

(* ===================================================================== *)
(** ** What the stream loop amounts to *)
(* ===================================================================== *)

Module Stream.
Import PyDict Pipeline.

(** The [generated_files] the [async for] loop leaves when the stream
    closes, or the exception one of its items raised. *)
Fixpoint drain (stream : list (outcome Update)) (generated_files : dict)
    : outcome dict :=
  match stream with
  | [] => Ok generated_files
  | Raised e :: _ => Raised e
  | Ok (FileUpdate filename content) :: rest =>
      drain rest (set filename content generated_files)
  | Ok _ :: rest => drain rest generated_files
  end.

(** The tokens the loop streams to the user on the way. *)
Fixpoint tokens (stream : list (outcome Update)) : list event :=
  match stream with
  | [] => []
  | Raised _ :: _ => []
  | Ok (FileUpdate filename _) :: rest =>
      Show (TokenGenerated filename) :: tokens rest
  | Ok (ProgressUpdate message) :: rest =>
      Show (TokenProgress message) :: tokens rest
  | Ok (OtherUpdate _) :: rest => tokens rest
  end.

(** The log of a run up to its second call, stack selection. *)
Definition opening (user_input : string) (requirements : Requirements)
    : list event :=
  [Show MsgAnalyzing; Call (analyze_requirements user_input);
   Show (StepIdentified (match features requirements with
                         | Some fs => length fs
                         | None => 0
                         end));
   Call (select_tech_stack requirements)].

(** What the leg after stack selection adds, up to the prompt. *)
Definition proposal (stack : TechStack) : list event :=
  [Show (StepStack stack); Show MsgAnalyzingRemoved; Call (ask_action stack)].

(** An upper bound on the legs a run still has to go. *)
Definition legs_left (w : World) (t : task) : nat :=
  match t with
  | Returned => 0
  | Suspended (AtPreview _ _ _ _) => 1
  | Suspended (AtFix _ _ _ _ _) => 2
  | Suspended (AtValidate _ _ _ _) => 3
  | Suspended (AtStream _ _ _ _ stream) => 4 + length stream
  | Suspended (AtConfirm _ requirements stack) =>
      5 + length (w_generate_code_stream w requirements stack)
  | Suspended (AtSelect _ requirements) =>
      6 + match w_select_tech_stack w requirements with
          | Ok stack => length (w_generate_code_stream w requirements stack)
          | Raised _ => 0
          end
  | Suspended (AtAnalyze user_input) => 7 + stream_length w user_input
  end.

End Stream.

(* ===================================================================== *)
(** ** Concrete inputs *)
(* ===================================================================== *)

Module Scenario.
Import PyDict Pipeline Chat.

Definition both_frontends : dict :=
  [("next.config.js", "module.exports = {}");
   ("package.json", "dependencies: next, react")].

Definition react_fastapi : dict :=
  [("package.json", "dependencies: react");
   ("main.py", "from fastapi import FastAPI")].

Definition readme_only : dict := [("README.md", "hello")].

Definition django_first : dict :=
  [("manage.py", "import django"); ("app.py", "import fastapi")].

Definition django_last : dict :=
  [("app.py", "import fastapi"); ("manage.py", "import django")].

Definition todo : Requirements :=
  {| features := Some ["create"; "edit"; "delete"];
     project_name := Some "Todo" |}.

Definition featureless : Requirements :=
  {| features := Some []; project_name := Some "Todo" |}.

Definition stack : TechStack :=
  {| frontend_framework := "React";
     backend_framework := "FastAPI";
     database_type := "PostgreSQL";
     styling_library := "Tailwind CSS" |}.

Definition two_files : list (outcome Update) :=
  [Ok (FileUpdate "main.py" "from fastapi import FastAPI");
   Ok (FileUpdate "README.md" "todo")].

(** Every service answers, the user confirms, the code is valid. *)
Definition smooth : World :=
  {| w_analyze_requirements := fun _ => Ok todo;
     w_select_tech_stack := fun _ => Ok stack;
     w_ask_action := fun _ => Ok (Some "yes");
     w_generate_code_stream := fun _ _ => two_files;
     w_validate_code := fun _ => Ok {| valid := true; errors := [] |};
     w_fix_code_issues := fun fs _ => Ok fs;
     w_create_preview := fun _ => Ok (Some "https://preview.example/1");
     feature_live_preview := false |}.

(** As [smooth], with a validator that never accepts. *)
Definition never_valid : World :=
  {| w_analyze_requirements := w_analyze_requirements smooth;
     w_select_tech_stack := w_select_tech_stack smooth;
     w_ask_action := w_ask_action smooth;
     w_generate_code_stream := w_generate_code_stream smooth;
     w_validate_code := fun _ => Ok {| valid := false; errors := ["E1"] |};
     w_fix_code_issues := w_fix_code_issues smooth;
     w_create_preview := w_create_preview smooth;
     feature_live_preview := false |}.

(** As [smooth], with a confirmation prompt that times out. *)
Definition unanswered : World :=
  {| w_analyze_requirements := w_analyze_requirements smooth;
     w_select_tech_stack := w_select_tech_stack smooth;
     w_ask_action := fun _ => Ok None;
     w_generate_code_stream := w_generate_code_stream smooth;
     w_validate_code := w_validate_code smooth;
     w_fix_code_issues := w_fix_code_issues smooth;
     w_create_preview := w_create_preview smooth;
     feature_live_preview := false |}.

(** As [smooth], with live preview on and a preview service that fails. *)
Definition preview_down : World :=
  {| w_analyze_requirements := w_analyze_requirements smooth;
     w_select_tech_stack := w_select_tech_stack smooth;
     w_ask_action := w_ask_action smooth;
     w_generate_code_stream := w_generate_code_stream smooth;
     w_validate_code := w_validate_code smooth;
     w_fix_code_issues := w_fix_code_issues smooth;
     w_create_preview := fun _ => Raised (Exception "preview host unreachable");
     feature_live_preview := true |}.

(** As [smooth], with an extraction that finds no feature. *)
Definition no_features : World :=
  {| w_analyze_requirements := fun _ => Ok featureless;
     w_select_tech_stack := w_select_tech_stack smooth;
     w_ask_action := w_ask_action smooth;
     w_generate_code_stream := w_generate_code_stream smooth;
     w_validate_code := w_validate_code smooth;
     w_fix_code_issues := w_fix_code_issues smooth;
     w_create_preview := w_create_preview smooth;
     feature_live_preview := false |}.

Definition ada : State := opened "ada" {| subscription_tier := Some "free" |}.

Definition admitted : outcome unit := Ok tt.

(** A request, a [/reset] while it waits on its first call, a second
    request. *)
Definition reset_then_resubmit : list action :=
  [UserMessage "build a todo app" admitted;
   UserMessage "/reset" admitted;
   UserMessage "build a blog" admitted].

(** A request taken up to the first streamed file. *)
Definition up_to_first_file : list action :=
  [UserMessage "build a todo app" admitted;
   Resume 0; Resume 0; Resume 0; Resume 0].

End Scenario.

(* ===================================================================== *)
(** ** The specification's sentences, as it words them *)
(* ===================================================================== *)

Module AsStated.
Import PyDict Advisor Pipeline Chat.

(** The frontend rules are unioned: a result matching both the
    server-rendered and the client-only rule gets what each gives. *)
Definition rules_unioned (fs : dict) : Prop :=
  has_nextjs fs = true -> has_react fs = true ->
  let o := prepare_deployment_options fs in
  (In "vercel" (recommended o) /\ In "netlify" (recommended o)) /\
  (forall platform, In platform ["netlify"; "railway"; "vercel"; "render"] ->
                    In platform (supported o)).

(** With a validator that never accepts, a run validates
    [maxRepairAttempts + 1] times and fails; a run is not reported as
    validated otherwise. *)
Definition repair_loop_bounded (maxRepairAttempts : nat) (w : World)
    (user_input : string) (s : Session) : Prop :=
  (forall fs, exists errs,
      w_validate_code w fs = Ok {| valid := false; errors := errs |}) ->
  let r := process_user_request w user_input s in
  count is_validate (run_log r) = maxRepairAttempts + 1 /\
  generation_status (run_session r) = FAILED /\
  ~ In (Show StepValidationPassed) (run_log r).

(** A confirmation prompt that yields no answer fails the run, which
    does not go on to generation. *)
Definition confirmation_timeout_fails (w : World) (user_input : string)
    (s : Session) : Prop :=
  (forall st, w_ask_action w st = Ok None) ->
  let r := process_user_request w user_input s in
  generation_status (run_session r) = FAILED /\
  count is_generate (run_log r) = 0.

(** A preview call that raises does not fail the run. *)
Definition preview_best_effort (w : World) (user_input : string)
    (s : Session) : Prop :=
  (forall fs, exists e, w_create_preview w fs = Raised e) ->
  let r := process_user_request w user_input s in
  (exists fs, In (Call (create_preview fs)) (run_log r)) ->
  generation_status (run_session r) = COMPLETED.

(** An extraction that returns no feature fails the run, which does
    not go on to stack selection. *)
Definition empty_features_fail (w : World) (user_input : string)
    (s : Session) : Prop :=
  (exists pn, w_analyze_requirements w user_input =
              Ok {| features := Some []; project_name := pn |}) ->
  let r := process_user_request w user_input s in
  generation_status (run_session r) = FAILED /\
  count is_select (run_log r) = 0.

(** At most one run of a session is under way at any instant. *)
Definition single_flight (w : World) (acts : list action) (c : State) : Prop :=
  length (tasks (play w acts c)) <= 1.

End AsStated.

(* ===================================================================== *)
(** ** The actions on a generated project *)
(* ===================================================================== *)

Module Actions.
Import PyDict Pipeline.

(** What an action callback does, in order: the messages it sends, the
    question it asks, the push it makes. *)
Inductive effect : Type :=
| SayNoProject                        (* "No project available" *)
| SayCode (project files_content : string)
| AskRepositoryName                   (* cl.AskUserMessage(..., timeout=60) *)
| PushToGitHub (repo_name : string) (pushed : dict) (about : string)
| SayPushed (repo_url : string)
| SayDeploySoon
| SayDownload (zip_name : string) (entries : list (string * string)).

(** [on_view_code] (lines 742-757); [format_code_files] is a helper of
    [app.utils.helpers], outside the sources, taken as given. *)
Definition on_view_code (format_code_files : dict -> string) (s : Session)
    : list effect :=
  match current_project s with
  | None => [SayNoProject]
  | Some project => [SayCode (name project) (format_code_files (files project))]
  end.

(** [on_push_github] (lines 760-792): what it did, and the exception it
    let through, if any. [answer] is what the question yields ([None]
    once its 60 seconds are over), [create_and_push] the GitHub client. *)
Definition on_push_github (answer : outcome (option string))
    (create_and_push : string -> dict -> string -> outcome string)
    (s : Session) : list effect * option exn :=
  match current_project s with
  | None => ([SayNoProject], None)
  | Some project =>
      match answer with
      | Raised e => ([AskRepositoryName], Some e)
      | Ok None => ([AskRepositoryName], None)
      | Ok (Some repo_name) =>
          let push := PushToGitHub repo_name (files project) (description project) in
          match create_and_push repo_name (files project) (description project) with
          | Raised e => ([AskRepositoryName; push], Some e)
          | Ok repo_url => ([AskRepositoryName; push; SayPushed repo_url], None)
          end
      end
  end.

(** [on_deploy] (lines 795-808). *)
Definition on_deploy (s : Session) : list effect :=
  match current_project s with
  | None => [SayNoProject]
  | Some _ => [SayDeploySoon]
  end.

(** [zip_file.writestr(filename, content)]: one more entry at the end. *)
Definition writestr (filename content : string)
    (zip : list (string * string)) : list (string * string) :=
  zip ++ [(filename, content)].

(** [on_download] (lines 811-844). *)
Definition on_download (s : Session) : list effect :=
  match current_project s with
  | None => [SayNoProject]
  | Some project =>
      let zip := fold_left (fun zip item => writestr (fst item) (snd item) zip)
                   (files project) [] in
      [SayDownload (String.append (name project) ".zip") zip]
  end.

(** Whether an effect reaches outside the chat. *)
Definition is_push (e : effect) : bool :=
  match e with PushToGitHub _ _ _ => true | _ => false end.

End Actions.

(* ===================================================================== *)
(** ** [management.py]: signing a user up *)
(* ===================================================================== *)

Module Signup.
Import PyDict Pipeline.

(** The dict handed to [supabase.auth.sign_up]: ["options"] is there
    only when there is metadata, as [{"data": metadata}]. *)
Record SignupData : Type := mkSignupData
  { email : string;
    password : string;
    options : option dict }.

(** The user object of a response, at the attributes printed. *)
Record SupabaseUser : Type := mkSupabaseUser
  { user_email : string;
    user_id : string }.

(** What the script prints or asks of Supabase, in order. *)
Inductive line : Type :=
| Header                                  (* the banner of a menu entry *)
| PasswordTooShort                        (* "Password must be at least 6 characters" *)
| PasswordsDoNotMatch
| CreatingUser
| SignUpRequest (data : SignupData)       (* supabase.auth.sign_up(signup_data) *)
| UserCreated (mail id : string)
| ErrorCreatingUser (text : string).

(** Truthiness of a [str]. *)
Definition nonempty (s : string) : bool :=
  match s with EmptyString => false | String _ _ => true end.

(** The [metadata] dict [create_user] builds (lines 26-30). *)
Definition metadata_of (first_name last_name : string) : dict :=
  let metadata := empty in
  let metadata := if nonempty first_name
                  then set "first_name" first_name metadata else metadata in
  if nonempty last_name then set "last_name" last_name metadata else metadata.

(** [create_user] (lines 23-51): what it prints and what it returns. *)
Definition create_user (sign_up : SignupData -> outcome SupabaseUser)
    (mail pass first_name last_name : string)
    : list line * option SupabaseUser :=
  let metadata := metadata_of first_name last_name in
  let signup_data :=
    {| email := mail; password := pass;
       options := match metadata with
                  | [] => None
                  | _ :: _ => Some metadata
                  end |} in
  match sign_up signup_data with
  | Ok u =>
      ([SignUpRequest signup_data; UserCreated (user_email u) (user_id u)], Some u)
  | Raised e =>
      ([SignUpRequest signup_data; ErrorCreatingUser (str e)], None)
  end.

(** [input(prompt)] on a terminal whose remaining lines are [stdin]:
    the next line, or [EOFError] when there is none. *)
Definition input (stdin : list string) : outcome string * list string :=
  match stdin with
  | [] => (Raised (Exception "EOFError"), [])
  | answer :: rest => (Ok answer, rest)
  end.

(** The outcome of a script function: what it printed, the input left
    unread, and whether it ended on an exception. *)
Record Terminal : Type := mkTerminal
  { printed : list line;
    unread : list string;
    raised : option exn }.

(** [interactive_signup] (lines 54-77). On lines of ASCII text
    [String.length] is [len] and [PyStr.strip] is [str.strip()]. *)
Definition interactive_signup (sign_up : SignupData -> outcome SupabaseUser)
    (stdin : list string) : Terminal :=
  match input stdin with
  | (Raised e, rest) => {| printed := [Header]; unread := rest; raised := Some e |}
  | (Ok line1, rest1) =>
  let mail := PyStr.strip line1 in
  match input rest1 with
  | (Raised e, rest) => {| printed := [Header]; unread := rest; raised := Some e |}
  | (Ok line2, rest2) =>
  let pass := PyStr.strip line2 in
  if (String.length pass <? 6)%nat then
    {| printed := [Header; PasswordTooShort]; unread := rest2; raised := None |}
  else
  match input rest2 with
  | (Raised e, rest) => {| printed := [Header]; unread := rest; raised := Some e |}
  | (Ok line3, rest3) =>
  let confirm_password := PyStr.strip line3 in
  if negb (String.eqb pass confirm_password) then
    {| printed := [Header; PasswordsDoNotMatch]; unread := rest3; raised := None |}
  else
  match input rest3 with
  | (Raised e, rest) => {| printed := [Header]; unread := rest; raised := Some e |}
  | (Ok line4, rest4) =>
  let first_name := PyStr.strip line4 in
  match input rest4 with
  | (Raised e, rest) => {| printed := [Header]; unread := rest; raised := Some e |}
  | (Ok line5, rest5) =>
  let last_name := PyStr.strip line5 in
  {| printed := [Header; CreatingUser] ++
                fst (create_user sign_up mail pass first_name last_name);
     unread := rest5;
     raised := None |}
  end end end end end.

(** The requests a script function sent to Supabase. *)
Definition requests (l : list line) : list SignupData :=
  flat_map (fun x => match x with SignUpRequest d => [d] | _ => [] end) l.

End Signup.

(* ===================================================================== *)
(** ** [app.py]: the message handler of the password-login chat *)
(* ===================================================================== *)

Module AuthApp.
Import Pipeline.

Inductive reply : Type :=
| Profile                              (* show_profile() *)
| Help                                 (* show_help() *)
| LogoutResult (message : string)      (* result["message"] of AuthManager.logout() *)
| RefreshNotice                        (* "Please refresh the page to log in again." *)
| Echo (content : string).             (* the placeholder answer, quoting the message *)

(** [AuthManager.logout] (lines 70-84): the ["message"] of its result;
    [sign_out] is what [supabase.auth.sign_out()] does. *)
Definition logout_message (sign_out : outcome unit) : string :=
  match sign_out with
  | Ok _ => "Logged out successfully!"
  | Raised e => String.append "Logout failed: " (str e)
  end.

(** [command = message.content.strip().lower()] (line 169). *)
Definition command_of (content : string) : string :=
  PyStr.lower (PyStr.strip content).

(** [main] (lines 164-195). *)
Definition main (sign_out : outcome unit) (content : string) : list reply :=
  let command := command_of content in
  if String.eqb command "/profile" then [Profile]
  else if String.eqb command "/help" then [Help]
  else if String.eqb command "/logout" then
    [LogoutResult (logout_message sign_out); RefreshNotice]
  else [Echo content].

End AuthApp.

(* ===================================================================== *)
(** ** Measures used in the proofs *)
(* ===================================================================== *)

Module Measure.
Import PyDict Pipeline.

(** The services in the order a run calls them. *)
Definition call_rank (c : call) : nat :=
  match c with
  | analyze_requirements _ => 0
  | select_tech_stack _ => 1
  | ask_action _ => 2
  | generate_code_stream _ _ => 3
  | validate_code _ => 4
  | fix_code_issues _ _ => 5
  | create_preview _ => 6
  end.

(** The rank of the call a task is suspended on. *)
Definition task_rank (t : task) : nat :=
  match t with
  | Suspended (AtAnalyze _) => 0
  | Suspended (AtSelect _ _) => 1
  | Suspended (AtConfirm _ _ _) => 2
  | Suspended (AtStream _ _ _ _ _) => 3
  | Suspended (AtValidate _ _ _ _) => 4
  | Suspended (AtFix _ _ _ _ _) => 5
  | Suspended (AtPreview _ _ _ _) => 6
  | Returned => 7
  end.

(** The calls of a log, by rank. *)
Definition call_ranks (l : list event) : list nat :=
  flat_map (fun e => match e with
                     | Call c => [call_rank c]
                     | Show _ => []
                     end) l.

Definition is_preview (e : event) : bool :=
  match e with Call (create_preview _) => true | _ => false end.

(** A string of whitespace only. *)
Fixpoint all_space (s : string) : bool :=
  match s with
  | EmptyString => true
  | String c rest => PyStr.is_space c && all_space rest
  end.

(** A string of ASCII characters only: on such a string the length in
    bytes is Python's [len], and the whitespace [PyStr.strip] removes is
    all the whitespace [str.strip()] removes. *)
Fixpoint ascii_only (s : string) : bool :=
  match s with
  | EmptyString => true
  | String c rest => (nat_of_ascii c <? 128)%nat && ascii_only rest
  end.

End Measure.

(* ===================================================================== *)
(** ** Further concrete inputs *)
(* ===================================================================== *)

Module Cases.
Import PyDict Pipeline Chat Scenario.

(** As [smooth], with a stream that breaks after its first file. *)
Definition broken_stream : World :=
  {| w_analyze_requirements := w_analyze_requirements smooth;
     w_select_tech_stack := w_select_tech_stack smooth;
     w_ask_action := w_ask_action smooth;
     w_generate_code_stream := fun _ _ =>
       [Ok (FileUpdate "main.py" "from fastapi import FastAPI");
        Raised (Exception "connection lost");
        Ok (FileUpdate "README.md" "todo")];
     w_validate_code := w_validate_code smooth;
     w_fix_code_issues := w_fix_code_issues smooth;
     w_create_preview := w_create_preview smooth;
     feature_live_preview := false |}.

(** As [smooth], with a user who asks to modify the stack. *)
Definition declining : World :=
  {| w_analyze_requirements := w_analyze_requirements smooth;
     w_select_tech_stack := w_select_tech_stack smooth;
     w_ask_action := fun _ => Ok (Some "no");
     w_generate_code_stream := w_generate_code_stream smooth;
     w_validate_code := w_validate_code smooth;
     w_fix_code_issues := w_fix_code_issues smooth;
     w_create_preview := w_create_preview smooth;
     feature_live_preview := false |}.

(** As [smooth], with live preview on. *)
Definition previewing : World :=
  {| w_analyze_requirements := w_analyze_requirements smooth;
     w_select_tech_stack := w_select_tech_stack smooth;
     w_ask_action := w_ask_action smooth;
     w_generate_code_stream := w_generate_code_stream smooth;
     w_validate_code := w_validate_code smooth;
     w_fix_code_issues := w_fix_code_issues smooth;
     w_create_preview := w_create_preview smooth;
     feature_live_preview := true |}.

Definition generated : dict :=
  [("main.py", "from fastapi import FastAPI"); ("README.md", "todo")].

End Cases.

(* ===================================================================== *)
(** ** Facts about dicts *)
(* ===================================================================== *)

Section DictFacts.
Import PyDict.

Lemma get_some_in (d : dict) (k v : string) :
  get k d = Some v -> In (k, v) d.
Proof.
  induction d as [| [k' v'] rest IH]; simpl; [discriminate |].
  destruct (String.eqb_spec k k') as [-> | Hne].
  - intros [= ->]. now left.
  - intros H. right. now apply IH.
Qed.

Lemma in_get_some (d : dict) (k v : string) :
  wf d -> In (k, v) d -> get k d = Some v.
Proof.
  unfold wf.
  induction d as [| [k' v'] rest IH]; simpl; [tauto |].
  intros Hnd Hin. inversion Hnd as [| ? ? Hfresh Hrest]; subst.
  destruct Hin as [[= -> ->] | Hin].
  - now rewrite String.eqb_refl.
  - destruct (String.eqb_spec k k') as [-> | Hne]; [| now apply IH].
    exfalso. apply Hfresh. change k' with (fst (k', v)). now apply in_map.
Qed.

Lemma mem_same (d1 d2 : dict) (k : string) :
  same_mapping d1 d2 -> mem k d1 = mem k d2.
Proof. intros H. unfold mem. now rewrite (H k). Qed.

Lemma get_or_same (d1 d2 : dict) (k default : string) :
  same_mapping d1 d2 -> get_or k default d1 = get_or k default d2.
Proof. intros H. unfold get_or. now rewrite (H k). Qed.

(** A test that some value of [d1] passes is passed by some value of
    any dict with the same mapping. *)
Lemma some_value_same (test : string -> bool) (d1 d2 : dict) :
  wf d1 -> same_mapping d1 d2 ->
  existsb test (values d1) = true -> existsb test (values d2) = true.
Proof.
  intros Hwf Hsame Hex.
  apply existsb_exists in Hex. destruct Hex as [v [Hin Htest]].
  unfold values in Hin. apply in_map_iff in Hin.
  destruct Hin as [[k v0] [Hv Hin]]. simpl in Hv. subst v0.
  apply existsb_exists. exists v. split; [| exact Htest].
  apply (in_get_some d1 k v Hwf) in Hin.
  rewrite (Hsame k) in Hin. apply get_some_in in Hin.
  unfold values. change v with (snd (k, v)). now apply in_map.
Qed.

Lemma values_test_same (test : string -> bool) (d1 d2 : dict) :
  wf d1 -> wf d2 -> same_mapping d1 d2 ->
  existsb test (values d1) = existsb test (values d2).
Proof.
  intros H1 H2 Hsame. apply Bool.eq_iff_eq_true. split.
  - now apply some_value_same.
  - apply some_value_same; [exact H2 |]. intros k. symmetry. apply Hsame.
Qed.

End DictFacts.

(* ===================================================================== *)
(** ** The deployment advisor *)
(* ===================================================================== *)

Section AdvisorFacts.
Import PyDict Advisor Scenario.

Lemma recommended_cases (fs : dict) :
  recommended (prepare_deployment_options fs) =
  (if has_nextjs fs then ["vercel"]
   else if has_react fs then ["netlify"] else []) ++
  (if has_django fs || has_fastapi fs then ["railway"] else []).
Proof.
  unfold prepare_deployment_options, body, frontend_branch, backend_branch.
  destruct (has_nextjs fs), (has_react fs), (has_django fs), (has_fastapi fs);
    reflexivity.
Qed.

Lemma supported_cases (fs : dict) :
  supported (prepare_deployment_options fs) =
  (if has_nextjs fs then ["netlify"; "railway"]
   else if has_react fs then ["vercel"; "render"] else []) ++
  (if has_django fs || has_fastapi fs then ["render"; "fly.io"; "aws"] else []).
Proof.
  unfold prepare_deployment_options, body, frontend_branch, backend_branch.
  destruct (has_nextjs fs), (has_react fs), (has_django fs), (has_fastapi fs);
    reflexivity.
Qed.

Lemma recommended_nodup (fs : dict) :
  NoDup (recommended (prepare_deployment_options fs)).
Proof.
  rewrite recommended_cases.
  destruct (has_nextjs fs), (has_react fs), (has_django fs || has_fastapi fs);
    simpl; repeat constructor; simpl; intuition discriminate.
Qed.

Lemma files_untouched (fs : dict) : files_after fs = fs.
Proof.
  unfold files_after, body, frontend_branch, backend_branch.
  destruct (has_nextjs fs), (has_react fs), (has_django fs), (has_fastapi fs);
    reflexivity.
Qed.

(** C4, as the specification words it, fails: a result with both
    [next.config.js] and a [package.json] mentioning react gets the
    server-rendered rule's platforms only. *)
Lemma rules_unioned_fails : ~ AsStated.rules_unioned both_frontends.
Proof.
  unfold AsStated.rules_unioned. intros H.
  destruct (H eq_refl eq_refl) as [[_ Hnetlify] _].
  vm_compute in Hnetlify. intuition discriminate.
Qed.

(** C4, amended: the server-rendered and the client-only rule are the
    two arms of one [if]/[elif]. For every result that matches the
    server-rendered rule, whether or not it also matches the
    client-only one, [recommended] is vercel, then railway if the
    backend rule matches, and [supported] is netlify and railway, then
    the backend rule's render, fly.io and aws if that rule matches;
    netlify is not recommended, and [recommended] has no duplicate. *)
Theorem server_rendered_rule_shadows_client_only (fs : dict) :
  has_nextjs fs = true ->
  let o := prepare_deployment_options fs in
  recommended o =
    "vercel" :: (if has_django fs || has_fastapi fs then ["railway"] else []) /\
  supported o =
    "netlify" :: "railway" ::
    (if has_django fs || has_fastapi fs then ["render"; "fly.io"; "aws"]
     else []) /\
  ~ In "netlify" (recommended o) /\
  NoDup (recommended o).
Proof.
  intros Hnext o. subst o.
  assert (Hrec := recommended_cases fs). assert (Hsup := supported_cases fs).
  rewrite Hnext in Hrec, Hsup. simpl in Hrec, Hsup.
  repeat split; try assumption.
  - rewrite Hrec. destruct (has_django fs || has_fastapi fs); simpl;
      intuition discriminate.
  - apply recommended_nodup.
Qed.

Lemma server_rendered_rule_shadows_client_only_witness :
  has_react both_frontends = true /\
  (let o := prepare_deployment_options both_frontends in
   recommended o = ["vercel"] /\
   supported o = ["netlify"; "railway"] /\
   ~ In "netlify" (recommended o) /\
   NoDup (recommended o)).
Proof.
  split; [reflexivity |].
  apply (server_rendered_rule_shadows_client_only both_frontends).
  reflexivity.
Defined.

(** C8: a result that matches none of the rules gets an empty
    [recommended] and an empty [supported], as an ordinary value. *)
Theorem no_match_gives_empty_options (fs : dict) :
  has_nextjs fs = false -> has_react fs = false ->
  has_django fs = false -> has_fastapi fs = false ->
  prepare_deployment_options fs = {| recommended := []; supported := [] |}.
Proof.
  intros Hn Hr Hd Hf.
  unfold prepare_deployment_options, body, frontend_branch, backend_branch.
  now rewrite Hn, Hr, Hd, Hf.
Qed.

Lemma no_match_gives_empty_options_witness :
  prepare_deployment_options readme_only =
  {| recommended := []; supported := [] |}.
Proof.
  apply (no_match_gives_empty_options readme_only); reflexivity.
Defined.

(** C9: two calls on dicts that hold the same mapping, in whatever
    order their items were inserted, return equal options, and each
    call leaves the dict it was given as it found it. *)
Theorem advise_deterministic_and_pure (fs1 fs2 : dict) :
  wf fs1 -> wf fs2 -> same_mapping fs1 fs2 ->
  prepare_deployment_options fs1 = prepare_deployment_options fs2 /\
  files_after fs1 = fs1 /\ files_after fs2 = fs2.
Proof.
  intros H1 H2 Hsame. split; [| split; apply files_untouched].
  unfold prepare_deployment_options, body.
  replace (has_nextjs fs2) with (has_nextjs fs1)
    by (unfold has_nextjs; now rewrite !(mem_same fs1 fs2)).
  replace (has_react fs2) with (has_react fs1)
    by (unfold has_react;
        now rewrite (mem_same fs1 fs2), (get_or_same fs1 fs2)).
  replace (has_django fs2) with (has_django fs1)
    by (unfold has_django; now rewrite (mem_same fs1 fs2)).
  replace (has_fastapi fs2) with (has_fastapi fs1)
    by (unfold has_fastapi; now apply values_test_same).
  unfold frontend_branch, backend_branch.
  destruct (has_nextjs fs1), (has_react fs1), (has_django fs1), (has_fastapi fs1);
    reflexivity.
Qed.

Lemma django_orders_wf : wf django_first /\ wf django_last.
Proof.
  unfold wf. split; simpl; repeat constructor; simpl; intuition discriminate.
Qed.

Lemma django_orders_same : same_mapping django_first django_last.
Proof.
  intros k. simpl.
  destruct (String.eqb_spec k "manage.py") as [-> | _]; [reflexivity |].
  destruct (String.eqb_spec k "app.py"); reflexivity.
Qed.

Lemma advise_deterministic_and_pure_witness :
  django_first <> django_last /\
  prepare_deployment_options django_first =
  prepare_deployment_options django_last.
Proof.
  split; [discriminate |].
  apply (advise_deterministic_and_pure django_first django_last).
  - apply django_orders_wf.
  - apply django_orders_wf.
  - apply django_orders_same.
Defined.

(** C10: [supported] is not deduplicated, a result whose
    [package.json] mentions react and one of whose files imports
    fastapi gets render twice, while [recommended] never holds a
    platform twice. *)
Theorem supported_repeats_recommended_does_not :
  count_occ string_dec
    (supported (prepare_deployment_options react_fastapi)) "render" = 2 /\
  forall fs, NoDup (recommended (prepare_deployment_options fs)).
Proof.
  split; [reflexivity | apply recommended_nodup].
Qed.

End AdvisorFacts.

(* ===================================================================== *)
(** ** Runs of the pipeline *)
(* ===================================================================== *)

Section RunFacts.
Import PyDict Pipeline Stream.

Variable w : World.

Lemma steps_add (n m : nat) (r : Run) :
  steps (n + m) w r = steps m w (steps n w r).
Proof. revert r. induction n as [| n IH]; intros r; simpl; [reflexivity | apply IH]. Qed.

Lemma steps_returned (n : nat) (r : Run) :
  run_task r = Returned -> steps n w r = r.
Proof.
  intros H. induction n as [| n IH]; simpl; [reflexivity |].
  unfold step. now rewrite H.
Qed.

Lemma step_run (p : point) (s : Session) (l : list event) :
  step w {| run_task := Suspended p; run_session := s; run_log := l |} =
  let '(t, s', evs) := advance w p s in
  {| run_task := t; run_session := s'; run_log := l ++ evs |}.
Proof. reflexivity. Qed.

(** Every leg brings the run closer to its return. *)
Lemma step_legs_left (r : Run) :
  legs_left w (run_task (step w r)) <= pred (legs_left w (run_task r)).
Proof.
  destruct r as [[p |] s l]; [| simpl; lia].
  rewrite step_run.
  destruct p as [ui | ui req | ui req st | ui req st fs stream
                 | ui req st fs | ui req st fs errs | ui req st fs];
    cbn [advance run_task legs_left].
  - unfold stream_length.
    destruct (w_analyze_requirements w ui); cbn; lia.
  - destruct (w_select_tech_stack w req); cbn; lia.
  - destruct (w_ask_action w st) as [[v |] | e]; cbn;
      try destruct (String.eqb v "no"); cbn; lia.
  - destruct stream as [| [[f c | m | ty] | e] rest]; cbn; lia.
  - destruct (w_validate_code w fs) as [vr | e]; cbn; [| lia].
    destruct (valid vr); cbn; [| lia].
    unfold validated, to_preview. destruct (feature_live_preview w); cbn; lia.
  - destruct (w_fix_code_issues w fs errs) as [fixed | e]; cbn; [| lia].
    unfold validated, to_preview. destruct (feature_live_preview w); cbn; lia.
  - destruct (w_create_preview w fs); cbn; lia.
Qed.

Lemma steps_return (n : nat) (r : Run) :
  legs_left w (run_task r) <= n -> run_task (steps n w r) = Returned.
Proof.
  revert r. induction n as [| n IH]; intros r Hn; simpl.
  - destruct (run_task r) as [p |]; [| reflexivity].
    destruct p; simpl in Hn; lia.
  - apply IH. pose proof (step_legs_left r). lia.
Qed.

(** The coroutine returns: the legs [process_user_request] is given
    are enough for every world. *)
Lemma process_user_request_returns (user_input : string) (s : Session) :
  run_task (process_user_request w user_input s) = Returned.
Proof.
  unfold process_user_request. apply steps_return. simpl. lia.
Qed.

(** The log only grows. *)
Lemma steps_log (n : nat) (r : Run) :
  exists evs, run_log (steps n w r) = run_log r ++ evs.
Proof.
  revert r. induction n as [| n IH]; intros r; simpl.
  - exists []. now rewrite app_nil_r.
  - destruct (IH (step w r)) as [evs Hevs]. rewrite Hevs.
    destruct r as [[p |] s l]; [| exists evs; reflexivity].
    rewrite step_run. destruct (advance w p s) as [[t s'] evs'].
    exists (evs' ++ evs). simpl. now rewrite app_assoc.
Qed.

(** The loop over the stream, taken as a whole. *)
Lemma steps_stream (ui : string) (req : Requirements) (st : TechStack)
    (stream : list (outcome Update)) :
  forall (fs : dict) (s : Session) (l : list event),
    steps (S (length stream)) w
      {| run_task := Suspended (AtStream ui req st fs stream);
         run_session := s; run_log := l |} =
    match drain stream fs with
    | Ok gathered =>
        {| run_task := Suspended (AtValidate ui req st gathered);
           run_session := s;
           run_log := l ++ tokens stream ++
                      [Show MsgGenerationUpdated;
                       Show (StepGenerated (len gathered));
                       Call (validate_code gathered)] |}
    | Raised e =>
        {| run_task := Returned;
           run_session := set_generation_status FAILED s;
           run_log := l ++ tokens stream ++
                      [Show (MsgGenerationFailed (str e))] |}
    end.
Proof.
  induction stream as [| item rest IH]; intros fs s l.
  - reflexivity.
  - change (steps (S (length (item :: rest))) w ?r)
      with (steps (S (length rest)) w (step w r)).
    rewrite step_run.
    destruct item as [[f c | m | ty] | e]; cbn [advance drain tokens].
    + rewrite IH. destruct (drain rest (set f c fs));
        now rewrite <- app_assoc.
    + rewrite IH. destruct (drain rest fs); now rewrite <- app_assoc.
    + rewrite IH. destruct (drain rest fs); now rewrite app_nil_r.
    + now rewrite steps_returned.
Qed.

Lemma count_app (f : event -> bool) (l1 l2 : list event) :
  count f (l1 ++ l2) = count f l1 + count f l2.
Proof. unfold count. now rewrite filter_app, length_app. Qed.

Lemma count_tokens (f : event -> bool) (stream : list (outcome Update)) :
  (forall o, f (Show o) = false) -> count f (tokens stream) = 0.
Proof.
  intros Hf. unfold count.
  induction stream as [| [[fn c | m | ty] | e] rest IH]; simpl;
    rewrite ?Hf; auto.
Qed.

End RunFacts.

Section PipelineFacts.
Import PyDict Pipeline Stream Scenario.

Variable w : World.
Variables (user_input : string) (s : Session).

Lemma run_to_select (requirements : Requirements) :
  w_analyze_requirements w user_input = Ok requirements ->
  steps 1 w (begin user_input s) =
  {| run_task := Suspended (AtSelect user_input requirements);
     run_session := set_generation_status GENERATING s;
     run_log := opening user_input requirements |}.
Proof.
  intros Ha. unfold begin, start. cbn [steps]. rewrite step_run.
  cbn [advance]. now rewrite Ha.
Qed.

Lemma run_to_confirm (requirements : Requirements) (stack : TechStack) :
  w_analyze_requirements w user_input = Ok requirements ->
  w_select_tech_stack w requirements = Ok stack ->
  steps 2 w (begin user_input s) =
  {| run_task := Suspended (AtConfirm user_input requirements stack);
     run_session := set_generation_status GENERATING s;
     run_log := opening user_input requirements ++ proposal stack |}.
Proof.
  intros Ha Hs. change 2 with (1 + 1). rewrite steps_add.
  rewrite (run_to_select requirements Ha). cbn [steps]. rewrite step_run.
  cbn [advance]. now rewrite Hs.
Qed.

Lemma run_to_stream (requirements : Requirements) (stack : TechStack)
    (answer : option string) :
  w_analyze_requirements w user_input = Ok requirements ->
  w_select_tech_stack w requirements = Ok stack ->
  w_ask_action w stack = Ok answer ->
  answer <> Some "no" ->
  steps 3 w (begin user_input s) =
  {| run_task :=
       Suspended (AtStream user_input requirements stack empty
                    (w_generate_code_stream w requirements stack));
     run_session := set_generation_status GENERATING s;
     run_log := (opening user_input requirements ++ proposal stack) ++
                [Show MsgGenerationOpened;
                 Call (generate_code_stream requirements stack)] |}.
Proof.
  intros Ha Hs Hk Hno. change 3 with (2 + 1). rewrite steps_add.
  rewrite (run_to_confirm requirements stack Ha Hs).
  cbn [steps]. rewrite step_run. cbn [advance]. rewrite Hk.
  destruct answer as [v |]; [| reflexivity].
  destruct (String.eqb_spec v "no") as [-> | _]; [congruence | reflexivity].
Qed.

(** A run is a prefix of legs followed by the rest of its legs. *)
Lemma run_from_prefix (n : nat) :
  n <= 7 ->
  exists evs,
    run_log (process_user_request w user_input s) =
    run_log (steps n w (begin user_input s)) ++ evs.
Proof.
  intros Hn. unfold process_user_request.
  replace (7 + stream_length w user_input)
    with (n + (7 - n + stream_length w user_input)) by lia.
  rewrite steps_add. apply steps_log.
Qed.

End PipelineFacts.

Section PipelineClaims.
Import PyDict Pipeline Stream Chat Scenario.

(** C1, as the specification words it, fails for every bound: with a
    validator that never accepts, the run validates once, repairs
    once, reports the validation as passed and completes. *)
Lemma repair_loop_bounded_fails :
  (~ exists maxRepairAttempts,
       AsStated.repair_loop_bounded maxRepairAttempts never_valid
         "build a todo app" (store ada)) /\
  (let r := process_user_request never_valid "build a todo app" (store ada) in
   count is_validate (run_log r) = 1 /\
   generation_status (run_session r) = COMPLETED /\
   In (Show StepValidationPassed) (run_log r)).
Proof.
  split; [| vm_compute; tauto].
  intros [n H]. unfold AsStated.repair_loop_bounded in H.
  assert (Hnever : forall fs, exists errs,
             w_validate_code never_valid fs =
             Ok {| valid := false; errors := errs |})
    by (intros fs; exists ["E1"]; reflexivity).
  destruct (H Hnever) as (_ & Hstatus & _).
  vm_compute in Hstatus. discriminate.
Qed.

(** C1, amended: in a run whose validation reports [valid = false],
    the repair is called exactly once, with the files and the errors
    of that report; what it returns is not validated again: the run
    makes one validation call in all, shows the validation as passed,
    and goes on with the repaired files, to the preview call when live
    preview is on, and otherwise to a completed run whose project
    holds them. There is no bound on repairs and no failure on account
    of the validator's verdict. *)
Theorem repair_runs_once_without_revalidation
    (w : World) (user_input : string) (s : Session)
    (requirements : Requirements) (stack : TechStack)
    (answer : option string) (generated_files fixed : dict)
    (report : ValidationResult) :
  w_analyze_requirements w user_input = Ok requirements ->
  w_select_tech_stack w requirements = Ok stack ->
  w_ask_action w stack = Ok answer ->
  answer <> Some "no" ->
  drain (w_generate_code_stream w requirements stack) empty =
    Ok generated_files ->
  w_validate_code w generated_files = Ok report ->
  valid report = false ->
  w_fix_code_issues w generated_files (errors report) = Ok fixed ->
  let r := process_user_request w user_input s in
  count is_validate (run_log r) = 1 /\
  count is_fix (run_log r) = 1 /\
  In (Call (fix_code_issues generated_files (errors report))) (run_log r) /\
  In (Show StepValidationPassed) (run_log r) /\
  if feature_live_preview w then
    In (Call (create_preview fixed)) (run_log r)
  else
    generation_status (run_session r) = COMPLETED /\
    exists project,
      current_project (run_session r) = Some project /\
      files project = fixed.
Proof.
  intros Ha Hs Hk Hno Hd Hv Hinvalid Hf r. subst r.
  unfold process_user_request, stream_length. rewrite Ha, Hs.
  set (stream := w_generate_code_stream w requirements stack) in *.
  replace (7 + length stream) with (3 + (S (length stream) + 3)) by lia.
  rewrite steps_add,
    (run_to_stream w user_input s requirements stack answer Ha Hs Hk Hno).
  fold stream. rewrite steps_add, steps_stream, Hd.
  cbn [steps]. rewrite step_run. cbn [advance]. rewrite Hv, Hinvalid.
  cbn [negb]. rewrite step_run. cbn [advance]. rewrite Hf.
  unfold validated, to_preview.
  destruct (feature_live_preview w).
  - rewrite step_run. cbn [advance].
    destruct (w_create_preview w fixed) as [url | e];
      cbn [finalize on_exception run_log];
      rewrite !count_app, !count_tokens by reflexivity;
      repeat split; try reflexivity;
      rewrite !in_app_iff; simpl; tauto.
  - cbn [finalize step run_task run_log run_session].
    rewrite !count_app, !count_tokens by reflexivity.
    repeat split; try reflexivity;
      try (rewrite !in_app_iff; simpl; tauto).
    eexists. split; reflexivity.
Qed.

Lemma repair_runs_once_without_revalidation_witness :
  let r := process_user_request never_valid "build a todo app" (store ada) in
  count is_validate (run_log r) = 1 /\
  count is_fix (run_log r) = 1 /\
  In (Call (fix_code_issues
              [("main.py", "from fastapi import FastAPI"); ("README.md", "todo")]
              ["E1"])) (run_log r) /\
  In (Show StepValidationPassed) (run_log r) /\
  generation_status (run_session r) = COMPLETED /\
  exists project,
    current_project (run_session r) = Some project /\
    files project =
    [("main.py", "from fastapi import FastAPI"); ("README.md", "todo")].
Proof.
  apply (repair_runs_once_without_revalidation never_valid
           "build a todo app" (store ada) todo stack (Some "yes")
           [("main.py", "from fastapi import FastAPI"); ("README.md", "todo")]
           [("main.py", "from fastapi import FastAPI"); ("README.md", "todo")]
           {| valid := false; errors := ["E1"] |});
    try reflexivity.
  discriminate.
Defined.

(** C2, as the specification words it, fails: when the confirmation
    prompt yields no answer the run goes on to generation and
    completes. *)
Lemma confirmation_timeout_fails_fails :
  ~ AsStated.confirmation_timeout_fails unanswered
      "build a todo app" (store ada).
Proof.
  unfold AsStated.confirmation_timeout_fails. intros H.
  destruct (H (fun _ => eq_refl)) as [Hstatus _].
  vm_compute in Hstatus. discriminate.
Qed.

(** C2, amended: for every run suspended at the confirmation prompt, a
    prompt that yields no answer is taken as a go-ahead: the run does
    not fail there, its status stays GENERATING, and its next leg opens
    the generation stream with the requirements and the stack that were
    proposed. Only the answer "no" keeps a run from generation. *)
Theorem unanswered_confirmation_goes_on_to_generation
    (w : World) (user_input : string) (s : Session)
    (requirements : Requirements) (stack : TechStack) :
  w_analyze_requirements w user_input = Ok requirements ->
  w_select_tech_stack w requirements = Ok stack ->
  w_ask_action w stack = Ok None ->
  let r := steps 3 w (begin user_input s) in
  run_task r =
    Suspended (AtStream user_input requirements stack empty
                 (w_generate_code_stream w requirements stack)) /\
  generation_status (run_session r) = GENERATING /\
  In (Call (generate_code_stream requirements stack))
     (run_log (process_user_request w user_input s)).
Proof.
  intros Ha Hs Hk r. subst r.
  assert (Hno : @None string <> Some "no") by discriminate.
  pose proof (run_to_stream w user_input s requirements stack None
                Ha Hs Hk Hno) as H3.
  destruct (run_from_prefix w user_input s 3) as [evs Hevs]; [lia |].
  rewrite Hevs, H3. cbn [run_task run_session run_log].
  repeat split.
  rewrite !in_app_iff. simpl. tauto.
Qed.

Lemma unanswered_confirmation_goes_on_to_generation_witness :
  let r := steps 3 unanswered (begin "build a todo app" (store ada)) in
  run_task r =
    Suspended (AtStream "build a todo app" todo stack empty two_files) /\
  generation_status (run_session r) = GENERATING /\
  In (Call (generate_code_stream todo stack))
     (run_log (process_user_request unanswered "build a todo app" (store ada))).
Proof.
  apply (unanswered_confirmation_goes_on_to_generation unanswered
           "build a todo app" (store ada) todo stack); reflexivity.
Defined.

(** C3, as the specification words it, fails: with live preview on and
    a preview call that raises, the run reaches the preview call and
    ends FAILED. *)
Lemma preview_best_effort_fails :
  ~ AsStated.preview_best_effort preview_down "build a todo app" (store ada).
Proof.
  unfold AsStated.preview_best_effort. intros H.
  assert (Hdown : forall fs, exists e, w_create_preview preview_down fs = Raised e)
    by (intros fs; eexists; reflexivity).
  assert (Hreached : exists fs,
             In (Call (create_preview fs))
                (run_log (process_user_request preview_down
                            "build a todo app" (store ada)))).
  { exists [("main.py", "from fastapi import FastAPI"); ("README.md", "todo")].
    vm_compute. tauto. }
  specialize (H Hdown Hreached). vm_compute in H. discriminate.
Qed.

(** C3, amended: the preview call is not best-effort. For every run
    suspended at the preview call, an error raised by the call ends the
    run FAILED with the error shown and the session's project left as
    it was; a call that returns completes the run, with the project
    attached under the URL returned, and then a missing URL is an
    ordinary outcome: the completion message carries a preview line
    only for a non-empty URL. *)
Theorem preview_outcome_decides_the_run
    (w : World) (user_input : string) (requirements : Requirements)
    (stack : TechStack) (generated_files : dict) (s : Session)
    (l : list event) :
  let r := step w {| run_task := Suspended
                       (AtPreview user_input requirements stack generated_files);
                     run_session := s; run_log := l |} in
  run_task r = Returned /\
  match w_create_preview w generated_files with
  | Raised e =>
      generation_status (run_session r) = FAILED /\
      current_project (run_session r) = current_project s /\
      run_log r = l ++ [Show (MsgGenerationFailed (str e))]
  | Ok url =>
      generation_status (run_session r) = COMPLETED /\
      (exists project,
          current_project (run_session r) = Some project /\
          files project = generated_files /\
          preview_url project = url /\
          run_log r = l ++ [Show (StepPreviewAt url);
                            Show (MsgAppReady (name project)
                                    (len generated_files) (truthy url))]) /\
      (truthy url = None <-> url = None \/ url = Some "")
  end.
Proof.
  intros r. subst r. rewrite step_run. cbn [advance].
  destruct (w_create_preview w generated_files) as [url | e].
  - cbn [finalize run_task run_session run_log]. repeat split.
    + eexists. repeat split.
    + destruct url as [u |]; simpl; [| tauto].
      destruct (String.eqb_spec u ""); [subst; tauto | discriminate].
    + destruct url as [u |]; simpl; [| reflexivity].
      intros [Hnone | [= ->]]; [discriminate | reflexivity].
  - cbn [on_exception run_task run_session run_log]. repeat split.
Qed.

(** C5, as the specification words it, fails: an extraction that
    returns an empty list of features is followed by stack selection,
    and the run completes. *)
Lemma empty_features_fail_fails :
  ~ AsStated.empty_features_fail no_features "build a todo app" (store ada).
Proof.
  unfold AsStated.empty_features_fail. intros H.
  assert (Hnone : exists pn,
             w_analyze_requirements no_features "build a todo app" =
             Ok {| features := Some []; project_name := pn |})
    by (exists (Some "Todo"); reflexivity).
  destruct (H Hnone) as [Hstatus _].
  vm_compute in Hstatus. discriminate.
Qed.

(** C5, amended: for every admitted request whose requirement
    extraction succeeds with an empty list of features, the run does
    not fail on that account: after the extraction it is suspended on
    stack selection, called with those requirements, its status still
    GENERATING, and when stack selection answers it goes on to the
    confirmation prompt. *)
Theorem empty_features_go_on_to_stack_selection
    (w : World) (user_input : string) (s : Session)
    (requirements : Requirements) :
  w_analyze_requirements w user_input = Ok requirements ->
  features requirements = Some [] ->
  let r := steps 1 w (begin user_input s) in
  let whole := process_user_request w user_input s in
  run_task r = Suspended (AtSelect user_input requirements) /\
  generation_status (run_session r) = GENERATING /\
  In (Call (select_tech_stack requirements)) (run_log whole) /\
  forall stack,
    w_select_tech_stack w requirements = Ok stack ->
    run_task (steps 2 w (begin user_input s)) =
      Suspended (AtConfirm user_input requirements stack) /\
    In (Call (ask_action stack)) (run_log whole).
Proof.
  intros Ha Hnone r whole. subst r whole.
  rewrite (run_to_select w user_input s requirements Ha).
  cbn [run_task run_session].
  split; [reflexivity | split; [reflexivity | split]].
  - destruct (run_from_prefix w user_input s 1) as [evs Hevs]; [lia |].
    rewrite Hevs, (run_to_select w user_input s requirements Ha).
    cbn [run_log]. rewrite in_app_iff. simpl. tauto.
  - intros st Hst.
    pose proof (run_to_confirm w user_input s requirements st Ha Hst) as H2.
    split; [now rewrite H2 |].
    destruct (run_from_prefix w user_input s 2) as [evs Hevs]; [lia |].
    rewrite Hevs, H2.
    cbn [run_log]. rewrite !in_app_iff. simpl. tauto.
Qed.

Lemma empty_features_go_on_to_stack_selection_witness :
  let r := steps 1 no_features (begin "build a todo app" (store ada)) in
  let whole := process_user_request no_features "build a todo app" (store ada) in
  run_task r = Suspended (AtSelect "build a todo app" featureless) /\
  generation_status (run_session r) = GENERATING /\
  In (Call (select_tech_stack featureless)) (run_log whole) /\
  forall stack,
    w_select_tech_stack no_features featureless = Ok stack ->
    run_task (steps 2 no_features (begin "build a todo app" (store ada))) =
      Suspended (AtConfirm "build a todo app" featureless stack) /\
    In (Call (ask_action stack)) (run_log whole).
Proof.
  apply (empty_features_go_on_to_stack_selection no_features
           "build a todo app" (store ada) featureless); reflexivity.
Defined.

End PipelineClaims.

(* ===================================================================== *)
(** ** The session across handlers *)
(* ===================================================================== *)

Section ChatFacts.
Import PyDict Pipeline Stream Chat Scenario.

Variable w : World.

(** A leg that suspends again leaves the session as it was; a leg that
    returns leaves a status other than GENERATING. *)
Lemma advance_session (p : point) (s : Session) :
  match advance w p s with
  | (Suspended _, s', _) => s' = s
  | (Returned, s', _) => generation_status s' <> GENERATING
  end.
Proof.
  destruct p as [ui | ui req | ui req st | ui req st fs stream
                 | ui req st fs | ui req st fs errs | ui req st fs];
    cbn [advance].
  - destruct (w_analyze_requirements w ui); cbn; [reflexivity | discriminate].
  - destruct (w_select_tech_stack w req); cbn; [reflexivity | discriminate].
  - destruct (w_ask_action w st) as [[v |] | e]; cbn;
      try destruct (String.eqb v "no"); cbn;
      first [reflexivity | discriminate].
  - destruct stream as [| [[f c | m | ty] | e] rest]; cbn;
      first [reflexivity | discriminate].
  - destruct (w_validate_code w fs) as [vr | e]; cbn; [| discriminate].
    destruct (valid vr); cbn; [| reflexivity].
    unfold validated, to_preview. destruct (feature_live_preview w); cbn;
      [reflexivity | discriminate].
  - destruct (w_fix_code_issues w fs errs) as [fixed | e]; cbn; [| discriminate].
    unfold validated, to_preview. destruct (feature_live_preview w); cbn;
      [reflexivity | discriminate].
  - destruct (w_create_preview w fs); cbn; discriminate.
Qed.

(** The pipeline never reads the status: a leg run on a session marked
    CANCELLED is the leg run on the unmarked session, and the mark stays
    only if the leg writes no status of its own. *)
Lemma advance_cancelled (p : point) (s : Session) :
  advance w p (set_generation_status CANCELLED s) =
  let '(t, s', evs) := advance w p s in
  (t,
   match t with
   | Returned => s'
   | Suspended _ => set_generation_status CANCELLED s'
   end,
   evs).
Proof.
  destruct p as [ui | ui req | ui req st | ui req st fs stream
                 | ui req st fs | ui req st fs errs | ui req st fs];
    cbn [advance].
  - destruct (w_analyze_requirements w ui); reflexivity.
  - destruct (w_select_tech_stack w req); reflexivity.
  - destruct (w_ask_action w st) as [[v |] | e];
      try destruct (String.eqb v "no"); reflexivity.
  - destruct stream as [| [[f c | m | ty] | e] rest]; reflexivity.
  - destruct (w_validate_code w fs) as [vr | e]; [| reflexivity].
    destruct (valid vr); [| reflexivity].
    unfold validated, to_preview. destruct (feature_live_preview w); reflexivity.
  - destruct (w_fix_code_issues w fs errs) as [fixed | e]; [| reflexivity].
    unfold validated, to_preview. destruct (feature_live_preview w); reflexivity.
  - destruct (w_create_preview w fs); reflexivity.
Qed.

End ChatFacts.

Section ChatClaims.
Import PyDict Pipeline Stream Chat Scenario.

(** C6: the code breaks the claim. A second request sent while a run is
    under way is turned away by the test on the status, as the claim
    says; but a [/reset] sent while the run waits on its first call is
    handled before that test, puts the status back to IDLE and leaves
    the run suspended, so the request after it passes the test and
    starts a second run beside the first: two runs of one session are
    under way at once. *)
Theorem reset_during_a_run_admits_a_second_run :
  tasks (play smooth
           [UserMessage "build a todo app" admitted;
            UserMessage "build a blog" admitted] ada) =
    [AtAnalyze "build a todo app"] /\
  (let reset := play smooth
                  [UserMessage "build a todo app" admitted;
                   UserMessage "/reset" admitted] ada in
   tasks reset = [AtAnalyze "build a todo app"] /\
   generation_status (store reset) = IDLE) /\
  (let c := play smooth reset_then_resubmit ada in
   tasks c = [AtAnalyze "build a todo app"; AtAnalyze "build a blog"] /\
   generation_status (store c) = GENERATING) /\
  ~ AsStated.single_flight smooth reset_then_resubmit ada.
Proof.
  split; [reflexivity | split; [split; reflexivity | split]].
  - split; reflexivity.
  - unfold AsStated.single_flight. vm_compute. lia.
Qed.

End ChatClaims.

(* ===================================================================== *)
(** ** The files a stream leaves *)
(* ===================================================================== *)

Section StreamFacts.
Import PyDict Pipeline Stream Chat Scenario.

Lemma get_set_same (k v : string) (d : dict) : get k (set k v d) = Some v.
Proof.
  induction d as [| [k' v'] rest IH]; simpl.
  - now rewrite String.eqb_refl.
  - destruct (String.eqb_spec k k') as [-> | Hne]; simpl.
    + now rewrite String.eqb_refl.
    + destruct (String.eqb_spec k k'); [contradiction | exact IH].
Qed.

Lemma get_set_other (k k' v : string) (d : dict) :
  k' <> k -> get k' (set k v d) = get k' d.
Proof.
  intros Hne. induction d as [| [k0 v0] rest IH]; simpl.
  - destruct (String.eqb_spec k' k); [contradiction | reflexivity].
  - destruct (String.eqb_spec k k0) as [-> | Hk]; simpl.
    + destruct (String.eqb_spec k' k0); [contradiction | reflexivity].
    + destruct (String.eqb_spec k' k0); [reflexivity | exact IH].
Qed.

Lemma in_keys_set (k v x : string) (d : dict) :
  In x (map fst (set k v d)) <-> x = k \/ In x (map fst d).
Proof.
  induction d as [| [k' v'] rest IH]; simpl.
  - intuition.
  - destruct (String.eqb_spec k k') as [-> | Hk]; simpl.
    + intuition.
    + rewrite IH. intuition.
Qed.

Lemma set_wf (k v : string) (d : dict) : wf d -> wf (set k v d).
Proof.
  unfold wf. induction d as [| [k' v'] rest IH]; simpl; intros Hd.
  - repeat constructor. intros [].
  - inversion Hd as [| ? ? Hfresh Hrest]; subst.
    destruct (String.eqb_spec k k') as [-> | Hk]; simpl.
    + now constructor.
    + constructor; [| now apply IH].
      rewrite in_keys_set. intros [-> | Hin]; [now apply Hk | now apply Hfresh].
Qed.

Lemma len_set (k v : string) (d : dict) : len (set k v d) <= S (len d).
Proof.
  unfold len. induction d as [| [k' v'] rest IH]; simpl; [lia |].
  destruct (String.eqb k k'); simpl; lia.
Qed.

Lemma drain_app (s1 s2 : list (outcome Update)) :
  forall fs,
    drain (s1 ++ s2) fs =
    match drain s1 fs with
    | Ok gathered => drain s2 gathered
    | Raised e => Raised e
    end.
Proof.
  induction s1 as [| [[f c | m | ty] | e] rest IH]; intros fs; simpl;
    try reflexivity; apply IH.
Qed.

Lemma drain_wf (stream : list (outcome Update)) :
  forall fs gathered, wf fs -> drain stream fs = Ok gathered -> wf gathered.
Proof.
  induction stream as [| [[f c | m | ty] | e] rest IH]; intros fs g Hwf Hd;
    simpl in Hd.
  - now injection Hd as <-.
  - apply (IH (set f c fs)); [now apply set_wf | exact Hd].
  - now apply (IH fs).
  - now apply (IH fs).
  - discriminate.
Qed.

Lemma drain_len (stream : list (outcome Update)) :
  forall fs gathered,
    drain stream fs = Ok gathered -> len gathered <= len fs + length stream.
Proof.
  induction stream as [| [[f c | m | ty] | e] rest IH]; intros fs g Hd;
    simpl in Hd.
  - injection Hd as <-. lia.
  - apply IH in Hd. pose proof (len_set f c fs). simpl. lia.
  - apply IH in Hd. simpl. lia.
  - apply IH in Hd. simpl. lia.
  - discriminate.
Qed.

Lemma drain_origin (stream : list (outcome Update)) :
  forall fs gathered f c,
    drain stream fs = Ok gathered -> get f gathered = Some c ->
    get f fs = Some c \/ In (Ok (FileUpdate f c)) stream.
Proof.
  induction stream as [| [[f0 c0 | m | ty] | e] rest IH]; intros fs g f c Hd Hget;
    simpl in Hd.
  - injection Hd as <-. now left.
  - destruct (IH _ _ _ _ Hd Hget) as [Hin | Hin]; [| right; now right].
    destruct (String.eqb_spec f f0) as [-> | Hne].
    + rewrite get_set_same in Hin. injection Hin as ->. right. now left.
    + rewrite get_set_other in Hin by exact Hne. now left.
  - destruct (IH _ _ _ _ Hd Hget) as [Hin | Hin]; [now left | right; now right].
  - destruct (IH _ _ _ _ Hd Hget) as [Hin | Hin]; [now left | right; now right].
  - discriminate.
Qed.

Lemma drain_untouched (stream : list (outcome Update)) (f : string) :
  forall fs gathered,
    (forall c, ~ In (Ok (FileUpdate f c)) stream) ->
    drain stream fs = Ok gathered -> get f gathered = get f fs.
Proof.
  induction stream as [| [[f0 c0 | m | ty] | e] rest IH]; intros fs g Hno Hd;
    simpl in Hd.
  - now injection Hd as <-.
  - rewrite (IH (set f0 c0 fs) g); [| | exact Hd].
    + apply get_set_other. intros ->. apply (Hno c0). now left.
    + intros c Hin. apply (Hno c). now right.
  - apply IH; [| exact Hd]. intros c Hin. apply (Hno c). now right.
  - apply IH; [| exact Hd]. intros c Hin. apply (Hno c). now right.
  - discriminate.
Qed.

Lemma drain_raises (stream : list (outcome Update)) (e : exn) :
  forall fs, In (Raised e) stream -> exists e', drain stream fs = Raised e'.
Proof.
  induction stream as [| [[f c | m | ty] | e0] rest IH]; intros fs Hin;
    simpl in *.
  - destruct Hin.
  - destruct Hin as [Heq | Hin]; [discriminate | now apply IH].
  - destruct Hin as [Heq | Hin]; [discriminate | now apply IH].
  - destruct Hin as [Heq | Hin]; [discriminate | now apply IH].
  - now exists e0.
Qed.

(** What the run holds when the loop over the stream has ended. *)
Lemma stream_end (w : World) (ui : string) (req : Requirements) (st : TechStack)
    (stream : list (outcome Update)) (fs gathered : dict) (s : Session)
    (l : list event) :
  run_task (steps (S (length stream)) w
              {| run_task := Suspended (AtStream ui req st fs stream);
                 run_session := s; run_log := l |}) =
    Suspended (AtValidate ui req st gathered) ->
  drain stream fs = Ok gathered.
Proof.
  rewrite steps_stream. destruct (drain stream fs) as [g | e]; simpl.
  - now intros [= ->].
  - discriminate.
Qed.

(** X1: the files handed to validation have unique paths, are no more
    than the stream had items, and each holds a content that the stream
    yielded for its path. *)
Theorem streamed_files_come_from_the_stream
    (w : World) (ui : string) (req : Requirements) (st : TechStack)
    (stream : list (outcome Update)) (gathered : dict) (s : Session)
    (l : list event) :
  run_task (steps (S (length stream)) w
              {| run_task := Suspended (AtStream ui req st empty stream);
                 run_session := s; run_log := l |}) =
    Suspended (AtValidate ui req st gathered) ->
  wf gathered /\
  len gathered <= length stream /\
  forall f c, get f gathered = Some c -> In (Ok (FileUpdate f c)) stream.
Proof.
  intros Hrun. apply stream_end in Hrun. split; [| split].
  - apply (drain_wf stream empty); [constructor | exact Hrun].
  - apply drain_len in Hrun. simpl in Hrun. exact Hrun.
  - intros f c Hget.
    destruct (drain_origin stream empty gathered f c Hrun Hget) as [H | H];
      [discriminate | exact H].
Qed.

Lemma streamed_files_come_from_the_stream_witness :
  let gathered := [("main.py", "from fastapi import FastAPI"); ("README.md", "todo")] in
  wf gathered /\
  len gathered <= length two_files /\
  forall f c, get f gathered = Some c -> In (Ok (FileUpdate f c)) two_files.
Proof.
  apply (streamed_files_come_from_the_stream smooth "build a todo app"
           todo stack two_files _ (store ada) []).
  reflexivity.
Defined.

(** X2: a later item for a path overwrites an earlier one: the file
    handed to validation holds what the last item for its path
    carried. *)
Theorem last_streamed_content_wins
    (w : World) (ui : string) (req : Requirements) (st : TechStack)
    (before after : list (outcome Update)) (f c : string)
    (fs gathered : dict) (s : Session) (l : list event) :
  (forall c', ~ In (Ok (FileUpdate f c')) after) ->
  let stream := before ++ Ok (FileUpdate f c) :: after in
  run_task (steps (S (length stream)) w
              {| run_task := Suspended (AtStream ui req st fs stream);
                 run_session := s; run_log := l |}) =
    Suspended (AtValidate ui req st gathered) ->
  get f gathered = Some c.
Proof.
  intros Hlast stream Hrun. apply stream_end in Hrun.
  subst stream. rewrite drain_app in Hrun.
  destruct (drain before fs) as [mid | e]; [| discriminate].
  simpl in Hrun.
  rewrite (drain_untouched after f _ gathered Hlast Hrun).
  apply get_set_same.
Qed.

Lemma last_streamed_content_wins_witness :
  get "main.py"
    [("main.py", "from fastapi import FastAPI"); ("README.md", "todo")] =
  Some "from fastapi import FastAPI".
Proof.
  apply (last_streamed_content_wins smooth "build a todo app" todo stack
           [Ok (FileUpdate "main.py" "print(1)"); Ok (ProgressUpdate "writing")]
           [Ok (FileUpdate "README.md" "todo")]
           "main.py" "from fastapi import FastAPI"
           empty _ (store ada) []).
  - intros c' [Heq | []]. discriminate.
  - reflexivity.
Defined.

(** X3: an item of the stream that raises ends the run FAILED: the
    files gathered so far are dropped, the validator is never called,
    and the session is the one the run began with but for its status. *)
Theorem stream_error_fails_the_run
    (w : World) (user_input : string) (s : Session)
    (requirements : Requirements) (stack : TechStack)
    (answer : option string) (e : exn) :
  w_analyze_requirements w user_input = Ok requirements ->
  w_select_tech_stack w requirements = Ok stack ->
  w_ask_action w stack = Ok answer ->
  answer <> Some "no" ->
  In (Raised e) (w_generate_code_stream w requirements stack) ->
  let r := process_user_request w user_input s in
  run_task r = Returned /\
  run_session r = set_generation_status FAILED s /\
  count is_validate (run_log r) = 0 /\
  exists text, In (Show (MsgGenerationFailed text)) (run_log r).
Proof.
  intros Ha Hs Hk Hno Hin r. subst r.
  unfold process_user_request, stream_length. rewrite Ha, Hs.
  set (stream := w_generate_code_stream w requirements stack) in *.
  destruct (drain_raises stream e empty Hin) as [e' Hd].
  replace (7 + length stream) with (3 + (S (length stream) + 3)) by lia.
  rewrite steps_add,
    (run_to_stream w user_input s requirements stack answer Ha Hs Hk Hno).
  fold stream. rewrite steps_add, steps_stream, Hd.
  rewrite steps_returned by reflexivity.
  cbn [run_task run_session run_log].
  split; [reflexivity | split; [reflexivity | split]].
  - rewrite !count_app, count_tokens by reflexivity. reflexivity.
  - exists (str e'). rewrite !in_app_iff. simpl. tauto.
Qed.

End StreamFacts.

(* ===================================================================== *)
(** ** How a run ends, and what it calls on the way *)
(* ===================================================================== *)

Section RunExtras.
Import PyDict Pipeline Stream Chat Scenario Measure Cases.

Lemma stream_error_fails_the_run_witness :
  let r := process_user_request broken_stream "build a todo app" (store ada) in
  run_task r = Returned /\
  run_session r = set_generation_status FAILED (store ada) /\
  count is_validate (run_log r) = 0 /\
  exists text, In (Show (MsgGenerationFailed text)) (run_log r).
Proof.
  apply (stream_error_fails_the_run broken_stream "build a todo app"
           (store ada) todo stack (Some "yes") (Exception "connection lost"));
    try reflexivity.
  - discriminate.
  - simpl. tauto.
Defined.

End RunExtras.

Section CallFacts.
Import PyDict Pipeline Stream Chat Scenario Measure Cases.

Lemma call_ranks_app (l1 l2 : list event) :
  call_ranks (l1 ++ l2) = call_ranks l1 ++ call_ranks l2.
Proof. unfold call_ranks. apply flat_map_app. Qed.

Lemma sorted_snoc (l : list nat) (k : nat) :
  StronglySorted lt l -> Forall (fun x => x < k) l ->
  StronglySorted lt (l ++ [k]).
Proof.
  induction l as [| x rest IH]; intros Hs Hb; simpl.
  - repeat constructor.
  - inversion Hs as [| ? ? Hrest Hx]; subst.
    inversion Hb as [| ? ? Hxk Hbrest]; subst.
    constructor; [now apply IH |].
    apply Forall_app. split; [exact Hx | now repeat constructor].
Qed.

(** A leg makes at most one call, of a service later in the order than
    the one it was waiting on, and is then waiting on that call or on
    nothing. *)
Lemma leg_ranks (w : World) (p : point) (s : Session) :
  let '(t, _, evs) := advance w p s in
  task_rank (Suspended p) <= task_rank t /\
  (call_ranks evs = [] \/
   exists k, call_ranks evs = [k] /\
             task_rank (Suspended p) < k /\ k <= task_rank t).
Proof.
  destruct p as [ui | ui req | ui req st | ui req st fs stream
                 | ui req st fs | ui req st fs errs | ui req st fs];
    cbn [advance].
  - destruct (w_analyze_requirements w ui); cbn; split; try lia;
      [right; exists 1; repeat split; lia | now left].
  - destruct (w_select_tech_stack w req); cbn; split; try lia;
      [right; exists 2; repeat split; lia | now left].
  - destruct (w_ask_action w st) as [[v |] | e]; cbn;
      try destruct (String.eqb v "no"); cbn; split; try lia;
      first [now left | right; exists 3; repeat split; lia].
  - destruct stream as [| [[f c | m | ty] | e] rest]; cbn; split; try lia;
      first [now left | right; exists 4; repeat split; lia].
  - destruct (w_validate_code w fs) as [vr | e]; cbn; [| split; [lia | now left]].
    destruct (valid vr); cbn.
    + unfold validated, to_preview. destruct (feature_live_preview w); cbn;
        split; try lia;
        first [now left | right; exists 6; repeat split; lia].
    + split; [lia | right; exists 5; repeat split; lia].
  - destruct (w_fix_code_issues w fs errs) as [fixed | e]; cbn;
      [| split; [lia | now left]].
    unfold validated, to_preview. destruct (feature_live_preview w); cbn;
      split; try lia;
      first [now left | right; exists 6; repeat split; lia].
  - destruct (w_create_preview w fs); cbn; split; try lia; now left.
Qed.

Lemma steps_ranks (w : World) (n : nat) :
  forall r,
    StronglySorted lt (call_ranks (run_log r)) /\
    Forall (fun k => k <= task_rank (run_task r)) (call_ranks (run_log r)) ->
    StronglySorted lt (call_ranks (run_log (steps n w r))) /\
    Forall (fun k => k <= task_rank (run_task (steps n w r)))
      (call_ranks (run_log (steps n w r))).
Proof.
  induction n as [| n IH]; intros r Hr; [exact Hr |].
  cbn [steps]. apply IH.
  destruct r as [[p |] s l]; [| exact Hr].
  cbn [run_task run_log] in Hr. destruct Hr as [Hsorted Hbound].
  rewrite step_run. pose proof (leg_ranks w p s) as Hleg.
  destruct (advance w p s) as [[t s'] evs]. cbn [run_task run_log].
  destruct Hleg as [Hup Hcalls]. rewrite call_ranks_app.
  assert (Hold : Forall (fun k => k <= task_rank t) (call_ranks l)).
  { eapply Forall_impl; [| exact Hbound]. cbv beta. intros k Hk. lia. }
  destruct Hcalls as [-> | [k [-> [Hlow Hhigh]]]].
  - rewrite app_nil_r. split; assumption.
  - split.
    + apply sorted_snoc; [exact Hsorted |].
      eapply Forall_impl; [| exact Hbound]. cbv beta. intros x Hx. lia.
    + apply Forall_app. split; [exact Hold | now repeat constructor].
Qed.

(** X5: at every point of every run, the calls made so far went to the
    services in the order extraction, stack selection, confirmation
    prompt, generation stream, validator, repair, preview, each service
    called at most once. *)
Theorem services_called_in_order_at_most_once
    (w : World) (user_input : string) (s : Session) (n : nat) :
  StronglySorted lt (call_ranks (run_log (steps n w (begin user_input s)))).
Proof.
  apply steps_ranks. cbn. split; repeat constructor.
Qed.

Lemma steps_log_all (P : event -> Prop) (w : World) :
  (forall p s, Forall P (snd (advance w p s))) ->
  forall n r, Forall P (run_log r) -> Forall P (run_log (steps n w r)).
Proof.
  intros Hleg. induction n as [| n IH]; intros r Hr; [exact Hr |].
  cbn [steps]. apply IH.
  destruct r as [[p |] s l]; [| exact Hr].
  rewrite step_run. specialize (Hleg p s).
  destruct (advance w p s) as [[t s'] evs]. cbn [run_log snd] in *.
  apply Forall_app. split; assumption.
Qed.

Lemma leg_without_preview (w : World) (p : point) (s : Session) :
  feature_live_preview w = false ->
  Forall (fun e => is_preview e = false) (snd (advance w p s)).
Proof.
  intros Hoff.
  destruct p as [ui | ui req | ui req st | ui req st fs stream
                 | ui req st fs | ui req st fs errs | ui req st fs];
    cbn [advance].
  - destruct (w_analyze_requirements w ui); cbn; repeat constructor.
  - destruct (w_select_tech_stack w req); cbn; repeat constructor.
  - destruct (w_ask_action w st) as [[v |] | e]; cbn;
      try destruct (String.eqb v "no"); cbn; repeat constructor.
  - destruct stream as [| [[f c | m | ty] | e] rest]; cbn; repeat constructor.
  - destruct (w_validate_code w fs) as [vr | e]; cbn; [| repeat constructor].
    destruct (valid vr); cbn; [| repeat constructor].
    unfold validated, to_preview. rewrite Hoff. cbn. repeat constructor.
  - destruct (w_fix_code_issues w fs errs) as [fixed | e]; cbn;
      [| repeat constructor].
    unfold validated, to_preview. rewrite Hoff. cbn. repeat constructor.
  - destruct (w_create_preview w fs); cbn; repeat constructor.
Qed.

(** X6: with live preview switched off in the settings, no run ever
    calls the preview service. *)
Theorem preview_off_means_no_preview_call
    (w : World) (user_input : string) (s : Session) (n : nat) :
  feature_live_preview w = false ->
  count is_preview (run_log (steps n w (begin user_input s))) = 0.
Proof.
  intros Hoff.
  assert (H : Forall (fun e => is_preview e = false)
                (run_log (steps n w (begin user_input s)))).
  { apply steps_log_all.
    - intros p s0. now apply leg_without_preview.
    - cbn. repeat constructor. }
  unfold count. induction H as [| e l He _ IH]; simpl; [reflexivity |].
  now rewrite He.
Qed.

Lemma preview_off_means_no_preview_call_witness :
  count is_preview
    (run_log (steps 12 smooth (begin "build a todo app" (store ada)))) = 0.
Proof.
  apply (preview_off_means_no_preview_call smooth "build a todo app"
           (store ada) 12).
  reflexivity.
Defined.

(** X7: when the user answers the confirmation prompt with "modify",
    the run returns at once: the status goes back to IDLE, the session
    notes that a custom stack is awaited, the project is left alone and
    the generation service is never called. *)
Theorem declined_stack_returns_to_idle
    (w : World) (user_input : string) (s : Session)
    (requirements : Requirements) (stack : TechStack) :
  w_analyze_requirements w user_input = Ok requirements ->
  w_select_tech_stack w requirements = Ok stack ->
  w_ask_action w stack = Ok (Some "no") ->
  let r := process_user_request w user_input s in
  run_task r = Returned /\
  run_session r =
    set_generation_status IDLE (set_awaiting_input "custom_stack" s) /\
  count is_generate (run_log r) = 0 /\
  In (Show MsgSpecifyTechnologies) (run_log r).
Proof.
  intros Ha Hs Hk r. subst r. unfold process_user_request.
  replace (7 + stream_length w user_input)
    with (2 + (1 + (4 + stream_length w user_input))) by lia.
  rewrite steps_add, (run_to_confirm w user_input s requirements stack Ha Hs).
  rewrite steps_add. cbn [steps]. rewrite step_run. cbn [advance].
  rewrite Hk. cbn [String.eqb Ascii.eqb Bool.eqb].
  rewrite steps_returned by reflexivity.
  cbn [run_task run_session run_log].
  split; [reflexivity | split; [reflexivity | split]].
  - reflexivity.
  - rewrite !in_app_iff. simpl. tauto.
Qed.

Lemma declined_stack_returns_to_idle_witness :
  let r := process_user_request declining "build a todo app" (store ada) in
  run_task r = Returned /\
  run_session r =
    set_generation_status IDLE
      (set_awaiting_input "custom_stack" (store ada)) /\
  count is_generate (run_log r) = 0 /\
  In (Show MsgSpecifyTechnologies) (run_log r).
Proof.
  apply (declined_stack_returns_to_idle declining "build a todo app"
           (store ada) todo stack); reflexivity.
Defined.

(** X8: when every service answers, the user does not ask to modify
    the stack and the validator accepts, the run completes: the project
    attached holds exactly the files the stream left, under the name
    the extraction gave (or "My App"), with the user's request as its
    description and the preview URL, if any; the repair is not called
    and the completion message counts those files. *)
Theorem accepted_run_attaches_the_streamed_files
    (w : World) (user_input : string) (s : Session)
    (requirements : Requirements) (stack : TechStack)
    (answer : option string) (gathered : dict)
    (report : ValidationResult) (url : option string) :
  w_analyze_requirements w user_input = Ok requirements ->
  w_select_tech_stack w requirements = Ok stack ->
  w_ask_action w stack = Ok answer ->
  answer <> Some "no" ->
  drain (w_generate_code_stream w requirements stack) empty = Ok gathered ->
  w_validate_code w gathered = Ok report ->
  valid report = true ->
  (if feature_live_preview w then w_create_preview w gathered else Ok None) =
    Ok url ->
  let r := process_user_request w user_input s in
  let project :=
    {| name := match project_name requirements with
               | Some n => n
               | None => "My App"
               end;
       description := user_input;
       tech_stack := stack;
       files := gathered;
       preview_url := url |} in
  run_task r = Returned /\
  run_session r =
    set_generation_status COMPLETED (set_current_project (Some project) s) /\
  count is_fix (run_log r) = 0 /\
  In (Show (MsgAppReady (name project) (len gathered) (truthy url))) (run_log r).
Proof.
  intros Ha Hs Hk Hno Hd Hv Hvalid Hurl r project. subst r project.
  unfold process_user_request, stream_length. rewrite Ha, Hs.
  set (stream := w_generate_code_stream w requirements stack) in *.
  replace (7 + length stream) with (3 + (S (length stream) + 3)) by lia.
  rewrite steps_add,
    (run_to_stream w user_input s requirements stack answer Ha Hs Hk Hno).
  fold stream. rewrite steps_add, steps_stream, Hd.
  cbn [steps]. rewrite step_run. cbn [advance]. rewrite Hv, Hvalid.
  cbn [negb]. unfold validated, to_preview.
  destruct (feature_live_preview w).
  - rewrite step_run. cbn [advance]. rewrite Hurl.
    cbn [finalize step run_task run_session run_log].
    rewrite !count_app, !count_tokens by reflexivity.
    split; [reflexivity | split; [reflexivity | split]]; [reflexivity |].
    rewrite !in_app_iff. simpl. tauto.
  - injection Hurl as <-.
    cbn [finalize step run_task run_session run_log].
    rewrite !count_app, !count_tokens by reflexivity.
    split; [reflexivity | split; [reflexivity | split]]; [reflexivity |].
    rewrite !in_app_iff. simpl. tauto.
Qed.

Lemma accepted_run_attaches_the_streamed_files_witness :
  let r := process_user_request previewing "build a todo app" (store ada) in
  let project :=
    {| name := "Todo";
       description := "build a todo app";
       tech_stack := stack;
       files := generated;
       preview_url := Some "https://preview.example/1" |} in
  run_task r = Returned /\
  run_session r =
    set_generation_status COMPLETED
      (set_current_project (Some project) (store ada)) /\
  count is_fix (run_log r) = 0 /\
  In (Show (MsgAppReady "Todo" 2 (Some "https://preview.example/1")))
     (run_log r).
Proof.
  apply (accepted_run_attaches_the_streamed_files previewing
           "build a todo app" (store ada) todo stack (Some "yes") generated
           {| valid := true; errors := [] |}
           (Some "https://preview.example/1"));
    try reflexivity.
  discriminate.
Defined.

End CallFacts.

(* ===================================================================== *)
(** ** Case and padding of commands *)
(* ===================================================================== *)

Section StringFacts.
Import Measure.

Lemma is_space_lower (c : ascii) :
  PyStr.is_space (PyStr.lower_char c) = PyStr.is_space c.
Proof. destruct c as [[] [] [] [] [] [] [] []]; reflexivity. Qed.

Lemma lower_char_twice (c : ascii) :
  PyStr.lower_char (PyStr.lower_char c) = PyStr.lower_char c.
Proof. destruct c as [[] [] [] [] [] [] [] []]; reflexivity. Qed.

Lemma lower_twice (s : string) : PyStr.lower (PyStr.lower s) = PyStr.lower s.
Proof.
  induction s as [| c rest IH]; simpl; [reflexivity |].
  now rewrite lower_char_twice, IH.
Qed.

Lemma lower_app (s1 s2 : string) :
  PyStr.lower (String.append s1 s2) =
  String.append (PyStr.lower s1) (PyStr.lower s2).
Proof. induction s1 as [| c rest IH]; simpl; [reflexivity | now rewrite IH]. Qed.

Lemma all_space_lower (s : string) :
  all_space (PyStr.lower s) = all_space s.
Proof.
  induction s as [| c rest IH]; simpl; [reflexivity |].
  now rewrite is_space_lower, IH.
Qed.

Lemma chars_app (s1 s2 : string) :
  list_ascii_of_string (String.append s1 s2) =
  list_ascii_of_string s1 ++ list_ascii_of_string s2.
Proof. induction s1 as [| c rest IH]; simpl; [reflexivity | now rewrite IH]. Qed.

Lemma chars_lower (s : string) :
  list_ascii_of_string (PyStr.lower s) =
  map PyStr.lower_char (list_ascii_of_string s).
Proof. induction s as [| c rest IH]; simpl; [reflexivity | now rewrite IH]. Qed.

Lemma string_of_lowered (l : list ascii) :
  string_of_list_ascii (map PyStr.lower_char l) =
  PyStr.lower (string_of_list_ascii l).
Proof. induction l as [| c rest IH]; simpl; [reflexivity | now rewrite IH]. Qed.

Lemma all_space_chars (s : string) :
  all_space s = forallb PyStr.is_space (list_ascii_of_string s).
Proof. induction s as [| c rest IH]; simpl; [reflexivity | now rewrite IH]. Qed.

Lemma lstrip_lowered (l : list ascii) :
  PyStr.lstrip_chars (map PyStr.lower_char l) =
  map PyStr.lower_char (PyStr.lstrip_chars l).
Proof.
  induction l as [| c rest IH]; simpl; [reflexivity |].
  rewrite is_space_lower. destruct (PyStr.is_space c); [exact IH | reflexivity].
Qed.

Lemma lstrip_spaces (l : list ascii) :
  forallb PyStr.is_space l = true -> PyStr.lstrip_chars l = [].
Proof.
  induction l as [| c rest IH]; simpl; [reflexivity |].
  destruct (PyStr.is_space c); simpl; [exact IH | discriminate].
Qed.

Lemma lstrip_app (l1 l2 : list ascii) :
  PyStr.lstrip_chars (l1 ++ l2) =
  if forallb PyStr.is_space l1 then PyStr.lstrip_chars l2
  else PyStr.lstrip_chars l1 ++ l2.
Proof.
  induction l1 as [| c rest IH]; simpl; [reflexivity |].
  destruct (PyStr.is_space c); simpl; [exact IH | reflexivity].
Qed.

Lemma forallb_rev (f : ascii -> bool) (l : list ascii) :
  forallb f (rev l) = forallb f l.
Proof.
  induction l as [| c rest IH]; simpl; [reflexivity |].
  rewrite forallb_app, IH. simpl. rewrite andb_true_r. apply andb_comm.
Qed.

(** Whitespace around a text does not change what [strip] leaves. *)
Lemma strip_padded (a b s : string) :
  all_space a = true -> all_space b = true ->
  PyStr.strip (String.append a (String.append s b)) = PyStr.strip s.
Proof.
  rewrite !all_space_chars. intros Ha Hb. unfold PyStr.strip.
  rewrite !chars_app. f_equal. f_equal.
  set (la := list_ascii_of_string a) in *.
  set (lb := list_ascii_of_string b) in *.
  set (ls := list_ascii_of_string s).
  rewrite lstrip_app, Ha, lstrip_app.
  destruct (forallb PyStr.is_space ls) eqn:Hs.
  - rewrite (lstrip_spaces lb Hb), (lstrip_spaces ls Hs). reflexivity.
  - rewrite rev_app_distr, lstrip_app, forallb_rev, Hb. reflexivity.
Qed.

(** Lowering and stripping can be done in either order. *)
Lemma strip_lower (s : string) :
  PyStr.strip (PyStr.lower s) = PyStr.lower (PyStr.strip s).
Proof.
  unfold PyStr.strip.
  rewrite chars_lower, lstrip_lowered, <- map_rev, lstrip_lowered, <- map_rev.
  apply string_of_lowered.
Qed.

End StringFacts.

(* ===================================================================== *)
(** ** Messages and commands of a chat *)
(* ===================================================================== *)

Section ChatExtras.
Import PyDict Pipeline Stream Chat Scenario Measure Cases.

(** X9: a message from a session that is not signed in, or one the
    rate limiter turns down, does nothing but show one notice: no
    session value changes and no run starts, whatever the message is,
    [/reset] included. *)
Theorem unadmitted_message_changes_nothing
    (content : string) (limiter : outcome unit) (c : State) :
  user (store c) = None \/ user_data (store c) = None \/
  (exists e, limiter = Raised e) ->
  let c' := on_message content limiter c in
  store c' = store c /\
  tasks c' = tasks c /\
  exists notice, transcript c' = transcript c ++ [Show notice].
Proof.
  intros H c'. subst c'. unfold on_message.
  destruct (user (store c)) as [u |];
    [| repeat split; eexists; reflexivity].
  destruct (user_data (store c)) as [d |];
    [| repeat split; eexists; reflexivity].
  destruct H as [H | [H | [e ->]]]; try discriminate.
  destruct e; repeat split; eexists; reflexivity.
Qed.

Lemma unadmitted_message_changes_nothing_witness :
  let c' := on_message "/reset"
              (Raised (RateLimitExceeded "5 requests per day")) ada in
  store c' = store ada /\
  tasks c' = tasks ada /\
  exists notice, transcript c' = transcript ada ++ [Show notice].
Proof.
  apply (unadmitted_message_changes_nothing "/reset"
           (Raised (RateLimitExceeded "5 requests per day")) ada).
  right. right. eexists. reflexivity.
Defined.

(** X10: a command is recognised whatever the case of its letters and
    the whitespace around it. *)
Theorem commands_ignore_case_and_padding
    (before after command command' : string) (c : State) :
  all_space before = true -> all_space after = true ->
  PyStr.lower command = PyStr.lower command' ->
  handle_command (String.append before (String.append command after)) c =
  handle_command command' c.
Proof.
  intros Hb Ha Hcase. unfold handle_command.
  rewrite !lower_app, strip_padded, Hcase by (now rewrite all_space_lower).
  reflexivity.
Qed.

Lemma commands_ignore_case_and_padding_witness :
  handle_command "  /Reset " ada = handle_command "/RESET" ada.
Proof.
  apply (commands_ignore_case_and_padding "  " " " "/Reset" "/RESET" ada);
    reflexivity.
Defined.

Lemma advance_keeps_user (w : World) (p : point) (s : Session) :
  let '(_, s', _) := advance w p s in
  user s' = user s /\ user_data s' = user_data s.
Proof.
  destruct p as [ui | ui req | ui req st | ui req st fs stream
                 | ui req st fs | ui req st fs errs | ui req st fs];
    cbn [advance].
  - destruct (w_analyze_requirements w ui); split; reflexivity.
  - destruct (w_select_tech_stack w req); split; reflexivity.
  - destruct (w_ask_action w st) as [[v |] | e];
      try destruct (String.eqb v "no"); split; reflexivity.
  - destruct stream as [| [[f c | m | ty] | e] rest]; split; reflexivity.
  - destruct (w_validate_code w fs) as [vr | e]; [| split; reflexivity].
    destruct (valid vr); [| split; reflexivity].
    unfold validated, to_preview.
    destruct (feature_live_preview w); split; reflexivity.
  - destruct (w_fix_code_issues w fs errs) as [fixed | e]; [| split; reflexivity].
    unfold validated, to_preview.
    destruct (feature_live_preview w); split; reflexivity.
  - destruct (w_create_preview w fs); split; reflexivity.
Qed.

(** X11: once the run of a session has returned, however it ended, the
    next request of the signed-in user is taken: it starts a run and
    the status is GENERATING again. *)
Theorem finished_run_frees_the_session
    (w : World) (c : State) (p : point) (content : string)
    (who : string) (data : UserData) :
  user (store c) = Some who -> user_data (store c) = Some data ->
  tasks c = [p] ->
  tasks (resume w 0 c) = [] ->
  PyStr.startswith "/" content = false ->
  let c' := on_message content (Ok tt) (resume w 0 c) in
  tasks c' = [AtAnalyze content] /\
  generation_status (store c') = GENERATING.
Proof.
  intros Hu Hd Hone Hdone Hslash c'. subst c'.
  unfold resume in *. rewrite Hone in *. cbn [nth_error] in *.
  pose proof (advance_session w p (store c)) as Hst.
  pose proof (advance_keeps_user w p (store c)) as Hkeep.
  destruct (advance w p (store c)) as [[[p' |] s'] evs];
    cbn [absorb tasks store] in *; [discriminate |].
  destruct Hkeep as [Hu' Hd'].
  unfold on_message. cbn [store tasks].
  rewrite Hu', Hd', Hu, Hd, Hslash.
  destruct (generation_status s'); cbn [is_generating];
    try (split; reflexivity).
  now contradiction Hst.
Qed.

Lemma finished_run_frees_the_session_witness :
  let c := play declining
             [UserMessage "build a todo app" admitted; Resume 0; Resume 0]
             ada in
  let c' := on_message "build a blog" (Ok tt) (resume declining 0 c) in
  tasks c' = [AtAnalyze "build a blog"] /\
  generation_status (store c') = GENERATING.
Proof.
  apply (finished_run_frees_the_session declining _
           (AtConfirm "build a todo app" todo stack) "build a blog"
           "ada" {| subscription_tier := Some "free" |});
    reflexivity.
Defined.

(** X12: a request sent after stop was pressed is taken at once: the
    status CANCELLED does not hold it back, and the run it starts is
    added to whatever runs are still suspended. *)
Theorem request_after_stop_starts_a_run
    (c : State) (content : string) (who : string) (data : UserData) :
  user (store c) = Some who -> user_data (store c) = Some data ->
  PyStr.startswith "/" content = false ->
  let c' := on_message content (Ok tt) (on_stop c) in
  tasks c' = tasks c ++ [AtAnalyze content] /\
  generation_status (store c') = GENERATING.
Proof.
  intros Hu Hd Hslash c'. subst c'. unfold on_message, on_stop.
  cbn [say write store tasks set_generation_status user user_data
         generation_status is_generating].
  rewrite Hu, Hd, Hslash. split; reflexivity.
Qed.

Lemma request_after_stop_starts_a_run_witness :
  let c := play smooth up_to_first_file ada in
  let c' := on_message "build a blog" (Ok tt) (on_stop c) in
  tasks c' = tasks c ++ [AtAnalyze "build a blog"] /\
  generation_status (store c') = GENERATING.
Proof.
  apply (request_after_stop_starts_a_run _ "build a blog"
           "ada" {| subscription_tier := Some "free" |});
    reflexivity.
Defined.

End ChatExtras.

(* ===================================================================== *)
(** ** The project actions after a run *)
(* ===================================================================== *)

Section ActionFacts.
Import PyDict Pipeline Stream Chat Scenario Measure Cases Actions.

Lemma zip_entries (d acc : list (string * string)) :
  fold_left (fun zip item => writestr (fst item) (snd item) zip) d acc =
  acc ++ d.
Proof.
  revert acc. induction d as [| [k v] rest IH]; intros acc; simpl.
  - now rewrite app_nil_r.
  - rewrite IH. unfold writestr. now rewrite <- app_assoc.
Qed.

(** The session and log of a run in which every service answers and
    the validator accepts. *)
Lemma accepted_run (w : World) (user_input : string) (s : Session)
    (requirements : Requirements) (stack : TechStack)
    (answer : option string) (gathered : dict)
    (report : ValidationResult) (url : option string) :
  w_analyze_requirements w user_input = Ok requirements ->
  w_select_tech_stack w requirements = Ok stack ->
  w_ask_action w stack = Ok answer ->
  answer <> Some "no" ->
  drain (w_generate_code_stream w requirements stack) empty = Ok gathered ->
  w_validate_code w gathered = Ok report ->
  valid report = true ->
  (if feature_live_preview w then w_create_preview w gathered else Ok None) =
    Ok url ->
  run_session (process_user_request w user_input s) =
    set_generation_status COMPLETED
      (set_current_project
         (Some {| name := match project_name requirements with
                          | Some n => n
                          | None => "My App"
                          end;
                  description := user_input;
                  tech_stack := stack;
                  files := gathered;
                  preview_url := url |}) s).
Proof.
  intros Ha Hs Hk Hno Hd Hv Hvalid Hurl.
  unfold process_user_request, stream_length. rewrite Ha, Hs.
  set (stream := w_generate_code_stream w requirements stack) in *.
  replace (7 + length stream) with (3 + (S (length stream) + 3)) by lia.
  rewrite steps_add,
    (run_to_stream w user_input s requirements stack answer Ha Hs Hk Hno).
  fold stream. rewrite steps_add, steps_stream, Hd.
  cbn [steps]. rewrite step_run. cbn [advance]. rewrite Hv, Hvalid.
  cbn [negb]. unfold validated, to_preview.
  destruct (feature_live_preview w).
  - rewrite step_run. cbn [advance]. rewrite Hurl. reflexivity.
  - injection Hurl as <-. reflexivity.
Qed.

(** X14: after a run in which every service answered and the validator
    accepted, the project actions serve that run: the download is an
    archive named after the project with one entry per file the stream
    left, in the order of their first appearance and no path twice; the
    push sends those files with the user's request as description; the
    code view formats those files. *)
Theorem actions_serve_the_completed_run
    (w : World) (user_input : string) (s : Session)
    (requirements : Requirements) (stack : TechStack)
    (answer : option string) (gathered : dict)
    (report : ValidationResult) (url : option string) :
  w_analyze_requirements w user_input = Ok requirements ->
  w_select_tech_stack w requirements = Ok stack ->
  w_ask_action w stack = Ok answer ->
  answer <> Some "no" ->
  drain (w_generate_code_stream w requirements stack) empty = Ok gathered ->
  w_validate_code w gathered = Ok report ->
  valid report = true ->
  (if feature_live_preview w then w_create_preview w gathered else Ok None) =
    Ok url ->
  let s' := run_session (process_user_request w user_input s) in
  let title := match project_name requirements with
               | Some n => n
               | None => "My App"
               end in
  on_download s' = [SayDownload (String.append title ".zip") gathered] /\
  NoDup (map fst gathered) /\
  (forall repo_name create_and_push,
      exists then_, fst (on_push_github (Ok (Some repo_name)) create_and_push s') =
                    AskRepositoryName ::
                    PushToGitHub repo_name gathered user_input :: then_) /\
  (forall format_code_files,
      on_view_code format_code_files s' =
      [SayCode title (format_code_files gathered)]).
Proof.
  intros Ha Hs Hk Hno Hd Hv Hvalid Hurl s' title. subst s' title.
  rewrite (accepted_run w user_input s requirements stack answer gathered
             report url Ha Hs Hk Hno Hd Hv Hvalid Hurl).
  split; [| split; [| split]].
  - unfold on_download. cbn [current_project set_generation_status
                               set_current_project name files].
    now rewrite zip_entries.
  - change (wf gathered). eapply drain_wf; [| exact Hd]. constructor.
  - intros repo_name create_and_push. unfold on_push_github.
    cbn [current_project set_generation_status set_current_project
           files description].
    destruct (create_and_push repo_name gathered user_input);
      eexists; reflexivity.
  - intros format_code_files. reflexivity.
Qed.

Lemma actions_serve_the_completed_run_witness :
  let s' := run_session
              (process_user_request smooth "build a todo app" (store ada)) in
  on_download s' = [SayDownload "Todo.zip" generated] /\
  NoDup (map fst generated) /\
  (forall repo_name create_and_push,
      exists then_, fst (on_push_github (Ok (Some repo_name)) create_and_push s') =
                    AskRepositoryName ::
                    PushToGitHub repo_name generated "build a todo app" :: then_) /\
  (forall format_code_files,
      on_view_code format_code_files s' =
      [SayCode "Todo" (format_code_files generated)]).
Proof.
  apply (actions_serve_the_completed_run smooth "build a todo app" (store ada)
           todo stack (Some "yes") generated
           {| valid := true; errors := [] |} None);
    try reflexivity.
  discriminate.
Defined.

End ActionFacts.

(* ===================================================================== *)
(** ** Signing up, and the commands of the password-login chat *)
(* ===================================================================== *)

Section SignupFacts.
Import PyDict Pipeline.

(** X15: on lines of ASCII text, the interactive sign-up sends a
    request to Supabase only after reading five lines: the password,
    stripped, has at least six characters and equals the stripped
    confirmation, the e-mail is the stripped first line, and no second
    request is sent. With a shorter or unconfirmed password, or an
    input that ends early, nothing is sent. *)
Theorem signup_needs_a_confirmed_password
    (sign_up : Signup.SignupData -> outcome Signup.SupabaseUser)
    (stdin : list string) (d : Signup.SignupData) :
  Forall (fun typed => Measure.ascii_only typed = true) (firstn 5 stdin) ->
  In d (Signup.requests (Signup.printed (Signup.interactive_signup sign_up stdin))) ->
  exists l1 l2 l3 l4 l5 rest,
    stdin = l1 :: l2 :: l3 :: l4 :: l5 :: rest /\
    Signup.email d = PyStr.strip l1 /\
    Signup.password d = PyStr.strip l2 /\
    PyStr.strip l3 = PyStr.strip l2 /\
    6 <= String.length (Signup.password d) /\
    Signup.requests (Signup.printed (Signup.interactive_signup sign_up stdin)) = [d] /\
    Signup.unread (Signup.interactive_signup sign_up stdin) = rest.
Proof.
  intros _. unfold Signup.interactive_signup.
  destruct stdin as [| l1 [| l2 rest2]]; cbn [Signup.input];
    try (simpl; tauto).
  destruct (String.length (PyStr.strip l2) <? 6)%nat eqn:Hlen; [simpl; tauto |].
  destruct rest2 as [| l3 rest3]; cbn [Signup.input]; [simpl; tauto |].
  destruct (String.eqb_spec (PyStr.strip l2) (PyStr.strip l3)) as [Heq | Hne];
    cbn [negb]; [| simpl; tauto].
  destruct rest3 as [| l4 [| l5 rest5]]; cbn [Signup.input];
    try (simpl; tauto).
  unfold Signup.create_user.
  match goal with |- context [sign_up ?data] => set (sent := data) end.
  destruct (sign_up sent); cbn; intros [<- | []];
    exists l1, l2, l3, l4, l5, rest5; repeat split; auto;
    apply Nat.ltb_ge in Hlen; exact Hlen.
Qed.

Lemma signup_needs_a_confirmed_password_witness :
  let sign_up := fun d => Ok {| Signup.user_email := Signup.email d;
                                Signup.user_id := "u-1" |} in
  let stdin := [" ada@example.org "; "secret123"; "secret123 "; "Ada"; ""; "3"] in
  exists l1 l2 l3 l4 l5 rest,
    stdin = l1 :: l2 :: l3 :: l4 :: l5 :: rest /\
    "ada@example.org" = PyStr.strip l1 /\
    "secret123" = PyStr.strip l2 /\
    PyStr.strip l3 = PyStr.strip l2 /\
    6 <= String.length "secret123" /\
    Signup.requests (Signup.printed (Signup.interactive_signup sign_up stdin)) =
      [{| Signup.email := "ada@example.org"; Signup.password := "secret123";
          Signup.options := Some [("first_name", "Ada")] |}] /\
    Signup.unread (Signup.interactive_signup sign_up stdin) = rest.
Proof.
  apply (signup_needs_a_confirmed_password
           (fun d => Ok {| Signup.user_email := Signup.email d;
                           Signup.user_id := "u-1" |})
           [" ada@example.org "; "secret123"; "secret123 "; "Ada"; ""; "3"]
           {| Signup.email := "ada@example.org"; Signup.password := "secret123";
              Signup.options := Some [("first_name", "Ada")] |}).
  - repeat constructor.
  - vm_compute. tauto.
Defined.

(** X16: [create_user] sends exactly one request, with the e-mail and
    password it was given; the request carries options only when a
    first or a last name was given, and then the metadata holds exactly
    the names that are not empty. It returns no user exactly when the
    sign-up raised, the exception being printed instead of passed on. *)
Theorem signup_sends_only_the_names_given
    (sign_up : Signup.SignupData -> outcome Signup.SupabaseUser)
    (mail pass first_name last_name : string) :
  let done := Signup.create_user sign_up mail pass first_name last_name in
  exists d,
    Signup.requests (fst done) = [d] /\
    Signup.email d = mail /\ Signup.password d = pass /\
    match Signup.options d with
    | None => first_name = "" /\ last_name = ""
    | Some metadata =>
        (first_name <> "" \/ last_name <> "") /\
        get "first_name" metadata =
          (if Signup.nonempty first_name then Some first_name else None) /\
        get "last_name" metadata =
          (if Signup.nonempty last_name then Some last_name else None)
    end /\
    (snd done = None <-> exists e, sign_up d = Raised e).
Proof.
  intros done. subst done. unfold Signup.create_user.
  match goal with |- context [sign_up ?data] => set (sent := data) end.
  exists sent.
  assert (Hsent : Signup.requests
                    (fst match sign_up sent with
                         | Ok u => ([Signup.SignUpRequest sent;
                                     Signup.UserCreated (Signup.user_email u)
                                       (Signup.user_id u)], Some u)
                         | Raised e => ([Signup.SignUpRequest sent;
                                         Signup.ErrorCreatingUser (str e)], None)
                         end) = [sent])
    by (destruct (sign_up sent); reflexivity).
  split; [exact Hsent |].
  split; [reflexivity | split; [reflexivity | split]].
  - subst sent. destruct first_name as [| a x], last_name as [| b y]; cbn;
      repeat split; auto; try (left; discriminate); right; discriminate.
  - destruct (sign_up sent) as [u | e]; cbn; split.
    + discriminate.
    + intros [e' He']. discriminate.
    + intros _. now exists e.
    + reflexivity.
Qed.

(** X17: the command text the password-login chat derives from a
    message, by stripping it and then lowering it, is the text the
    generation chat's [handle_command] derives from the same message,
    by lowering it and then stripping it. *)
Theorem command_text_same_in_either_order (content : string) :
  AuthApp.command_of content = PyStr.strip (PyStr.lower content).
Proof. unfold AuthApp.command_of. symmetry. apply strip_lower. Qed.

End SignupFacts.

(* ===================================================================== *)
(** ** Which platforms the advisor recommends *)
(* ===================================================================== *)

Section AdvisorExtras.
Import PyDict Advisor.

(** X18: the recommendation is read off the three tests: vercel is
    recommended exactly for a Next.js manifest, netlify exactly for a
    react [package.json] without one, railway exactly for a Django
    entry point or a FastAPI import; nothing else is ever recommended,
    and platforms are supported exactly when some platform is
    recommended. *)
Theorem recommended_exactly_by_rule (fs : dict) :
  let o := prepare_deployment_options fs in
  (In "vercel" (recommended o) <-> has_nextjs fs = true) /\
  (In "netlify" (recommended o) <->
     has_nextjs fs = false /\ has_react fs = true) /\
  (In "railway" (recommended o) <-> has_django fs || has_fastapi fs = true) /\
  (forall platform, In platform (recommended o) ->
     platform = "vercel" \/ platform = "netlify" \/ platform = "railway") /\
  (recommended o = [] <-> supported o = []).
Proof.
  intros o. subst o. rewrite recommended_cases, supported_cases.
  destruct (has_nextjs fs), (has_react fs), (has_django fs || has_fastapi fs);
    simpl; repeat split; intros; intuition (try discriminate; try congruence).
Qed.

End AdvisorExtras.
